(** * learning-tracker: the time-series engine of [app.py] and
    [generate_chart.py], embedded and verified.

    Numbers that pandas keeps as float64 are modelled as exact rationals
    ([Q], compared with [==]); rounding is outside the model.  Timestamps
    are calendar dates at midnight, ordered chronologically, i.e.
    lexicographically on (year, month, day). *)

From Stdlib Require Import ZArith QArith Qminmax String Ascii List Sorted Permutation Bool Lia Lqa.
Import ListNotations.

Local Open Scope Z_scope.

(** ** Calendar: the parts of [datetime] and [calendar] the program uses *)

Module Calendar.

Record date := mkdate { year : Z; month : Z; day : Z }.

(** [calendar.isleap] *)
Definition isleap (y : Z) : bool :=
  (y mod 4 =? 0) && (negb (y mod 100 =? 0) || (y mod 400 =? 0)).

(** [calendar.mdays] *)
Definition mdays (m : Z) : Z :=
  match m with
  | 1 => 31 | 2 => 28 | 3 => 31 | 4 => 30 | 5 => 31 | 6 => 30
  | 7 => 31 | 8 => 31 | 9 => 30 | 10 => 31 | 11 => 30 | 12 => 31
  | _ => 0
  end.

(** second component of [calendar.monthrange(y, m)] *)
Definition days_in_month (y m : Z) : Z :=
  mdays m + (if (m =? 2) && isleap y then 1 else 0).

(** What the [datetime] constructor accepts (MINYEAR = 1, MAXYEAR = 9999). *)
Definition valid_date (d : date) : bool :=
  (1 <=? year d) && (year d <=? 9999) &&
  (1 <=? month d) && (month d <=? 12) &&
  (1 <=? day d) && (day d <=? days_in_month (year d) (month d)).

(** Chronological comparison, as [datetime._cmp] on the field tuples. *)
Definition date_ltb (a b : date) : bool :=
  (year a <? year b) ||
  ((year a =? year b) &&
   ((month a <? month b) || ((month a =? month b) && (day a <? day b)))).

Definition date_leb (a b : date) : bool := negb (date_ltb b a).

Definition date_eqb (a b : date) : bool :=
  (year a =? year b) && (month a =? month b) && (day a =? day b).

(** [d + timedelta(days=1)] *)
Definition next_day (d : date) : date :=
  if day d <? days_in_month (year d) (month d)
  then mkdate (year d) (month d) (day d + 1)
  else if month d <? 12
       then mkdate (year d) (month d + 1) 1
       else mkdate (year d + 1) 1 1.

(** [datetime._days_before_year] *)
Definition days_before_year (y : Z) : Z :=
  let y1 := y - 1 in y1 * 365 + y1 / 4 - y1 / 100 + y1 / 400.

(** [datetime._days_before_month] *)
Definition days_before_month (y m : Z) : Z :=
  fold_right Z.add 0
    (map (fun k => days_in_month y (Z.of_nat k)) (seq 1 (Z.to_nat m - 1))).

(** [date.toordinal] *)
Definition toordinal (d : date) : Z :=
  days_before_year (year d) + days_before_month (year d) (month d) + day d.

(** [d.replace(day=k)]: [ValueError] (here [None]) when the month has no
    such day. *)
Definition replace_day (d : date) (k : Z) : option date :=
  if (1 <=? k) && (k <=? days_in_month (year d) (month d))
  then Some (mkdate (year d) (month d) k)
  else None.

(** The daily index pandas builds for [resample("D")]: [periods]
    consecutive days from [start]. *)
Fixpoint date_range (start : date) (periods : nat) : list date :=
  match periods with
  | O => []
  | S n => start :: date_range (next_day start) n
  end.

(** Number of daily bins between two dates, both included. *)
Definition periods_between (first last : date) : nat :=
  Z.to_nat (toordinal last - toordinal first + 1).

(** *** Text forms *)

Definition digit_char (n : Z) : ascii := ascii_of_nat (48 + Z.to_nat n).

(** [strftime("%Y-%m")] for years of four digits. *)
Definition strftime_Ym (d : date) : string :=
  let y := year d in
  let m := month d in
  String (digit_char (y / 1000 mod 10))
    (String (digit_char (y / 100 mod 10))
      (String (digit_char (y / 10 mod 10))
        (String (digit_char (y mod 10))
          (String "-"%char
            (String (digit_char (m / 10 mod 10))
              (String (digit_char (m mod 10)) EmptyString)))))).

Definition is_digit (c : ascii) : bool :=
  let n := nat_of_ascii c in (48 <=? n)%nat && (n <=? 57)%nat.

Definition digit_val (c : ascii) : Z := Z.of_nat (nat_of_ascii c) - 48.

(** ASCII lower-casing, for the case-insensitive match of [%b]. *)
Definition to_lower (c : ascii) : ascii :=
  let n := nat_of_ascii c in
  if (65 <=? n)%nat && (n <=? 90)%nat then ascii_of_nat (n + 32) else c.

(** [%b] in the C locale. *)
Definition month_of_abbr (a b c : ascii) : option Z :=
  let s := String (to_lower a) (String (to_lower b) (String (to_lower c) EmptyString)) in
  if String.eqb s "jan" then Some 1
  else if String.eqb s "feb" then Some 2
  else if String.eqb s "mar" then Some 3
  else if String.eqb s "apr" then Some 4
  else if String.eqb s "may" then Some 5
  else if String.eqb s "jun" then Some 6
  else if String.eqb s "jul" then Some 7
  else if String.eqb s "aug" then Some 8
  else if String.eqb s "sep" then Some 9
  else if String.eqb s "oct" then Some 10
  else if String.eqb s "nov" then Some 11
  else if String.eqb s "dec" then Some 12
  else None.

(** [datetime.strptime(s, "%Y-%b")]: four digits, a hyphen, a month
    abbreviation and nothing else; the day defaults to 1.  [None] stands
    for [ValueError]. *)
Definition strptime_Yb (s : string) : option date :=
  match s with
  | String y3 (String y2 (String y1 (String y0
      (String "-"%char (String a (String b (String c EmptyString))))))) =>
      if is_digit y3 && is_digit y2 && is_digit y1 && is_digit y0 then
        let y := 1000 * digit_val y3 + 100 * digit_val y2
                 + 10 * digit_val y1 + digit_val y0 in
        match month_of_abbr a b c with
        | Some m => if 1 <=? y then Some (mkdate y m 1) else None
        | None => None
        end
      else None
  | _ => None
  end.

(** [pd.to_datetime] on the date-only ISO form [YYYY-MM-DD] that the
    data source uses for calendar dates. *)
Definition to_datetime (s : string) : option date :=
  match s with
  | String y3 (String y2 (String y1 (String y0
      (String "-"%char (String m1 (String m0
        (String "-"%char (String d1 (String d0 EmptyString))))))))) =>
      if is_digit y3 && is_digit y2 && is_digit y1 && is_digit y0
         && is_digit m1 && is_digit m0 && is_digit d1 && is_digit d0 then
        let d := mkdate (1000 * digit_val y3 + 100 * digit_val y2
                         + 10 * digit_val y1 + digit_val y0)
                        (10 * digit_val m1 + digit_val m0)
                        (10 * digit_val d1 + digit_val d0) in
        if valid_date d then Some d else None
      else None
  | _ => None
  end.

End Calendar.

Import Calendar.

Local Open Scope Q_scope.

(** ** Column operations of pandas *)

(** [Series.sum] *)
Definition Qsum (xs : list Q) : Q := fold_left Qplus xs 0.

(** [Series.cumsum]: one running total, emitted after each element. *)
Fixpoint cumsum_from (acc : Q) (xs : list Q) : list Q :=
  match xs with
  | [] => []
  | x :: t => let acc' := acc + x in acc' :: cumsum_from acc' t
  end.

Definition cumsum (xs : list Q) : list Q := cumsum_from 0 xs.

(** [Series.mean] of a non-empty window. *)
Definition mean (xs : list Q) : Q :=
  Qsum xs / inject_Z (Z.of_nat (length xs)).

(** Keep the last [window] elements. *)
Definition trim (window : nat) (buf : list Q) : list Q :=
  skipn (length buf - window) buf.

(** [Series.rolling(window, min_periods).mean()]: a trailing window slides
    over the column; a point is NaN ([None]) while the window holds fewer
    than [min_periods] observations. *)
Fixpoint rolling_mean_from (window min_periods : nat) (buf xs : list Q)
  : list (option Q) :=
  match xs with
  | [] => []
  | x :: t =>
      let buf' := trim window (buf ++ [x]) in
      (if (min_periods <=? length buf')%nat then Some (mean buf') else None)
        :: rolling_mean_from window min_periods buf' t
  end.

Definition rolling_mean (window min_periods : nat) (xs : list Q)
  : list (option Q) :=
  rolling_mean_from window min_periods [] xs.

(** ** Series Builder: [analyze_data] of [app.py] *)

(** A row of the normalized activity frame. *)
Record Obs := mkObs { Date : date; LearningTime : Q }.

(** A row of the daily frame. *)
Record DailyRow := mkDaily {
  dDate : date;
  dLearningTime : Q;
  Cumulative_Time : Q;
  Moving_Avg_60d : option Q
}.

(** [df.sort_values("Date")], as a stable insertion sort. *)
Fixpoint insert_by_date (r : Obs) (df : list Obs) : list Obs :=
  match df with
  | [] => [r]
  | h :: t =>
      if date_ltb (Date r) (Date h) then r :: df
      else h :: insert_by_date r t
  end.

Fixpoint sort_values (df : list Obs) : list Obs :=
  match df with
  | [] => []
  | r :: t => insert_by_date r (sort_values t)
  end.

(** Minutes logged on day [d]: the sum of one daily bin. *)
Definition bin_sum (df : list Obs) (d : date) : Q :=
  Qsum (map LearningTime (filter (fun r => date_eqb (Date r) d) df)).

(** [df.set_index("Date").resample("D").sum().fillna(0).reset_index()] on
    a frame sorted by date: one bin per day from the first to the last
    date, an empty bin summing to 0. *)
Definition resample_D_sum (df : list Obs) : list (date * Q) :=
  match df with
  | [] => []
  | r0 :: _ =>
      let first := Date r0 in
      let last := Date (List.last df r0) in
      map (fun d => (d, bin_sum df d))
          (date_range first (periods_between first last))
  end.

Definition analyze_data (df : list Obs) : list DailyRow :=
  match df with
  | [] => []
  | _ =>
      let df_daily := resample_D_sum (sort_values df) in
      let minutes := map snd df_daily in
      let cum := cumsum minutes in
      let mavg := rolling_mean 60 1 minutes in
      map (fun '((d, m), (c, a)) => mkDaily d m c a)
          (combine df_daily (combine cum mavg))
  end.

(** ** Month View Composer: the month part of [main] in [app.py] *)

(** A row of the goal frame. *)
Record Goal := mkGoal { Month : date; GoalTime : Q }.

(** A row of [df_month]. *)
Record MonthRow := mkMonthRow {
  mDaily : DailyRow;
  Monthly_Cumulative : Q
}.

Record TargetRow := mkTarget { tDate : date; Target_Cumulative : Q }.

Definition next_month_start (current_month_start : date) : date :=
  if (month current_month_start =? 12)%Z
  then mkdate (year current_month_start + 1) 1 (day current_month_start)
  else mkdate (year current_month_start) (month current_month_start + 1)
              (day current_month_start).

(** [df[(df["Date"] >= current_month_start) & (df["Date"] < next_month_start)]] *)
Definition filter_month (df : list DailyRow) (current_month_start : date)
  : list DailyRow :=
  let nms := next_month_start current_month_start in
  filter (fun r => date_leb current_month_start (dDate r)
                   && date_ltb (dDate r) nms) df.

Definition df_month (df : list DailyRow) (current_month_start : date)
  : list MonthRow :=
  let sel := filter_month df current_month_start in
  map (fun '(r, c) => mkMonthRow r c)
      (combine sel (cumsum (map dLearningTime sel))).

(** First goal row of the selected month, 0 when there is none. *)
Definition current_goal_minutes (goal_df : list Goal)
    (current_month_start : date) : Q :=
  match filter (fun g => date_eqb (Month g) current_month_start) goal_df with
  | [] => 0
  | g :: _ => GoalTime g
  end.

(** [range(1, days_in_month + 1)] *)
Definition day_range (days : Z) : list Z :=
  map Z.of_nat (seq 1 (Z.to_nat days)).

(** Python's [a > b] on numbers. *)
Definition Qgtb (a b : Q) : bool := negb (Qle_bool a b).

Definition target_data (goal_minutes : Q) (current_month_start : date)
  : list TargetRow :=
  if Qgtb goal_minutes 0 then
    let dim := days_in_month (year current_month_start)
                             (month current_month_start) in
    flat_map
      (fun d =>
         match replace_day current_month_start d with
         | None => []
         | Some date_val =>
             [mkTarget date_val
                (goal_minutes * (inject_Z d / inject_Z dim))]
         end)
      (day_range dim)
  else [].

(** [Series.dropna] *)
Definition dropna (xs : list (option Q)) : list Q :=
  flat_map (fun o => match o with Some v => [v] | None => [] end) xs.

(** [Series.min] and [Series.max] of a non-empty column. *)
Definition series_min (x : Q) (xs : list Q) : Q :=
  fold_left (fun m v => if Qle_bool v m then v else m) xs x.

Definition series_max (x : Q) (xs : list Q) : Q :=
  fold_left (fun m v => if Qle_bool m v then v else m) xs x.

(** Python's [max(0, x)]. *)
Definition max0 (x : Q) : Q := if Qgtb x 0 then x else 0.

Definition ma_domain (ma_column : list (option Q)) : Q * Q :=
  match dropna ma_column with
  | [] => (0, 300)
  | v :: vs =>
      let min_ma := series_min v vs in
      let max_ma := series_max v vs in
      let padding := (max_ma - min_ma) * (2 # 10) in
      let padding := if Qeq_bool padding 0 then 20 else padding in
      (max0 (min_ma - padding), max_ma + padding)
  end.

Record MonthView := mkMonthView {
  points : list MonthRow;
  target_points : list TargetRow;
  moving_avg_display_domain : Q * Q
}.

Definition month_view (df : list DailyRow) (goal_df : list Goal)
    (current_month_start : date) : MonthView :=
  let dfm := df_month df current_month_start in
  mkMonthView dfm
    (target_data (current_goal_minutes goal_df current_month_start)
                 current_month_start)
    (ma_domain (map (fun r => Moving_Avg_60d (mDaily r)) dfm)).

(** ** [process_data] of [generate_chart.py] *)

Record ChartRow := mkChartRow {
  cdate : date;
  cminutes : Q;
  moving_avg_60d : option Q;
  monthly_cumulative : Q
}.

(** [now] stands for [datetime.now()]. *)
Definition process_data (df : list Obs) (now : date) : list ChartRow :=
  match df with
  | [] => []
  | _ =>
      let daily := resample_D_sum (sort_values df) in
      let mavg := rolling_mean 60 1 (map snd daily) in
      let full := combine daily mavg in
      let current_month_str := strftime_Ym now in
      let cur :=
        filter (fun r => String.eqb (strftime_Ym (fst (fst r)))
                                    current_month_str) full in
      map (fun '((d, m, a), c) => mkChartRow d m a c)
          (combine cur (cumsum (map (fun r => snd (fst r)) cur)))
  end.

(** ** Raw records: JSON values under Python's dictionary semantics *)

#[local] Set Warnings "-register-all".

Inductive json :=
| JNull
| JBool (b : bool)
| JNum (q : Q)
| JStr (s : string)
| JArr (items : list json)
| JObj (fields : list (string * json)).

Inductive exn :=
| KeyError (k : string)
| IndexError
| TypeError
| AttributeError
| ValueError.

Inductive result (A : Type) :=
| Ok (a : A)
| Raise (e : exn).

Arguments Ok {A} a.
Arguments Raise {A} e.

Definition bind {A B} (r : result A) (k : A -> result B) : result B :=
  match r with
  | Ok a => k a
  | Raise e => Raise e
  end.

Notation "x <- e ;; k" := (bind e (fun x => k))
  (at level 61, e at next level, right associativity).

Fixpoint lookup {A} (k : string) (kv : list (string * A)) : option A :=
  match kv with
  | [] => None
  | (k', v) :: t => if String.eqb k' k then Some v else lookup k t
  end.

(** [v[k]] for a string key *)
Definition subscript (v : json) (k : string) : result json :=
  match v with
  | JObj kv =>
      match lookup k kv with
      | Some x => Ok x
      | None => Raise (KeyError k)
      end
  | _ => Raise TypeError
  end.

(** [v[0]] *)
Definition subscript0 (v : json) : result json :=
  match v with
  | JArr (x :: _) => Ok x
  | JArr [] => Raise IndexError
  | JStr (String c _) => Ok (JStr (String c EmptyString))
  | JStr EmptyString => Raise IndexError
  | JObj _ => Raise (KeyError "0")
  | _ => Raise TypeError
  end.

(** [v.get(k, default)] *)
Definition dict_get (v : json) (k : string) (default : json) : result json :=
  match v with
  | JObj kv =>
      match lookup k kv with
      | Some x => Ok x
      | None => Ok default
      end
  | _ => Raise AttributeError
  end.

(** Truth value of an object, as [not v] and [v or w] test it. *)
Definition truthy (v : json) : bool :=
  match v with
  | JNull => false
  | JBool b => b
  | JNum q => negb (Qeq_bool q 0)
  | JStr s => negb (String.eqb s "")
  | JArr l => match l with [] => false | _ => true end
  | JObj kv => match kv with [] => false | _ => true end
  end.

(** [v != "s"] *)
Definition ne_str (v : json) (s : string) : bool :=
  match v with
  | JStr t => negb (String.eqb t s)
  | _ => true
  end.

(** [v or w] *)
Definition py_or (v w : json) : json := if truthy v then v else w.

(** A JSON value used as a number.  Values that are not numbers lie
    outside the schema of the data source; the model stops on them with
    [TypeError]. *)
Definition as_number (v : json) : result Q :=
  match v with
  | JNum q => Ok q
  | JBool b => Ok (if b then 1 else 0)
  | _ => Raise TypeError
  end.

Fixpoint mapM {A B} (f : A -> result B) (l : list A) : result (list B) :=
  match l with
  | [] => Ok []
  | a :: t => b <- f a ;; bs <- mapM f t ;; Ok (b :: bs)
  end.

(** ** Record Normalizer: [process_raw_data] and [process_goal_data] *)

Definition PROPERTY_DATE : string := "日付".
Definition PROPERTY_TIME : string := "勉強時間(分)".
Definition PROPERTY_MONTH_TITLE : string := "月タイトル".
Definition PROPERTY_GOAL_TIME : string := "目標学習時間".

(** An element of [data]: [{"Date": date_str, "LearningTime": learning_time}] *)
Record RawRow := mkRaw { rDate : json; rLearningTime : json }.

(** One turn of the loop of [process_raw_data]; [None] is [continue]. *)
Definition raw_row_of_page (page : json) : result (option RawRow) :=
  props <- subscript page "properties" ;;
  date_prop <- dict_get props PROPERTY_DATE (JObj []) ;;
  skip <- (if negb (truthy date_prop) then Ok true
           else ty <- subscript date_prop "type" ;;
                if ne_str ty "date" then Ok true
                else dv <- subscript date_prop "date" ;;
                     Ok (negb (truthy dv))) ;;
  if skip : bool then Ok None
  else
    dv <- subscript date_prop "date" ;;
    date_str <- subscript dv "start" ;;
    time_prop <- dict_get props PROPERTY_TIME (JObj []) ;;
    use_zero <- (if negb (truthy time_prop) then Ok true
                 else ty <- subscript time_prop "type" ;;
                      Ok (ne_str ty "number")) ;;
    learning_time <- (if use_zero : bool then Ok (JNum 0)
                      else n <- subscript time_prop "number" ;;
                           Ok (py_or n (JNum 0))) ;;
    Ok (Some (mkRaw date_str learning_time)).

(** The loop: rows are appended in page order, an exception ends it. *)
Fixpoint collect_rows (results : list json) : result (list RawRow) :=
  match results with
  | [] => Ok []
  | page :: rest =>
      r <- raw_row_of_page page ;;
      rs <- collect_rows rest ;;
      Ok (match r with Some x => x :: rs | None => rs end)
  end.

(** [pd.to_datetime] on one cell of the [Date] column. *)
Definition datetime_of_json (v : json) : result date :=
  match v with
  | JStr s =>
      match to_datetime s with
      | Some d => Ok d
      | None => Raise ValueError
      end
  | _ => Raise TypeError
  end.

Definition frame_row (r : RawRow) : result Obs :=
  m <- as_number (rLearningTime r) ;;
  d <- datetime_of_json (rDate r) ;;
  Ok (mkObs d m).

Definition process_raw_data (results : list json) : result (list Obs) :=
  data <- collect_rows results ;;
  mapM frame_row data.

(** One turn of the loop of [process_goal_data]. *)
Definition goal_of_page (page : json) : result (option Goal) :=
  props <- subscript page "properties" ;;
  month_prop <- dict_get props PROPERTY_MONTH_TITLE (JObj []) ;;
  skip <- (if negb (truthy month_prop) then Ok true
           else t <- subscript month_prop "title" ;;
                Ok (negb (truthy t))) ;;
  if skip : bool then Ok None
  else
    t <- subscript month_prop "title" ;;
    t0 <- subscript0 t ;;
    tx <- subscript t0 "text" ;;
    month_str <- subscript tx "content" ;;
    goal_prop <- dict_get props PROPERTY_GOAL_TIME (JObj []) ;;
    use_zero <- (if negb (truthy goal_prop) then Ok true
                 else ty <- subscript goal_prop "type" ;;
                      Ok (ne_str ty "number")) ;;
    goal_time <- (if use_zero : bool then Ok 0
                  else n <- subscript goal_prop "number" ;;
                       h <- as_number (py_or n (JNum 0)) ;;
                       Ok (h * 60)) ;;
    match month_str with
    | JStr s =>
        match strptime_Yb s with
        | Some date_obj => Ok (Some (mkGoal date_obj goal_time))
        | None => Ok None
        end
    | _ => Raise TypeError
    end.

Fixpoint process_goal_data (results : list json) : result (list Goal) :=
  match results with
  | [] => Ok []
  | page :: rest =>
      g <- goal_of_page page ;;
      gs <- process_goal_data rest ;;
      Ok (match g with Some x => x :: gs | None => gs end)
  end.

(** ** Property bags as the data source shapes them

    Every property object carries its kind under ["type"] and its value
    under the key named after that kind. *)

Inductive notion_prop :=
| NDate (start : option string)
| NNumber (n : option Q)
| NTitle (texts : list string)
| NOther (ty : string) (payload : json).

Definition text_item (s : string) : json :=
  JObj [("type", JStr "text");
        ("text", JObj [("content", JStr s); ("link", JNull)]);
        ("plain_text", JStr s)]%string.

Definition encode_prop (p : notion_prop) : json :=
  match p with
  | NDate None =>
      JObj [("id", JStr "p"); ("type", JStr "date"); ("date", JNull)]%string
  | NDate (Some s) =>
      JObj [("id", JStr "p"); ("type", JStr "date");
            ("date", JObj [("start", JStr s); ("end", JNull);
                           ("time_zone", JNull)])]%string
  | NNumber None =>
      JObj [("id", JStr "p"); ("type", JStr "number"); ("number", JNull)]%string
  | NNumber (Some q) =>
      JObj [("id", JStr "p"); ("type", JStr "number"); ("number", JNum q)]%string
  | NTitle texts =>
      JObj [("id", JStr "title"); ("type", JStr "title");
            ("title", JArr (map text_item texts))]%string
  | NOther ty payload =>
      JObj [("id", JStr "p"); ("type", JStr ty); (ty, payload)]%string
  end.

Definition encode_page (props : list (string * notion_prop)) : json :=
  JObj [("object", JStr "page");
        ("properties", JObj (map (fun kp => (fst kp, encode_prop (snd kp))) props))]%string.

(** A property of a kind the normalizer does not read. *)
Definition other_kind (p : notion_prop) : bool :=
  match p with
  | NOther ty _ =>
      negb (String.eqb ty "date") && negb (String.eqb ty "number")
      && negb (String.eqb ty "title") && negb (String.eqb ty "id")
      && negb (String.eqb ty "type")
  | _ => true
  end.

Definition goal_page_example : json :=
  encode_page [(PROPERTY_MONTH_TITLE, NTitle ["2026-Jan"%string]);
               (PROPERTY_GOAL_TIME, NNumber (Some 10))].

Definition bad_goal_page : json :=
  encode_page [(PROPERTY_MONTH_TITLE, NOther "rich_text" (JArr [text_item "2026-Jan"]));
               (PROPERTY_GOAL_TIME, NNumber (Some 10))].

Definition obs_scenario : list Obs :=
  [ mkObs (mkdate 2026 1 1) 30; mkObs (mkdate 2026 1 1) 20;
    mkObs (mkdate 2026 1 3) 10 ].

(** ** Month navigation of [main] in [app.py] *)

Local Open Scope Z_scope.

(** [d - timedelta(days=1)], before the range check. *)
Definition prev_day (d : date) : date :=
  if (1 <? day d)%Z then mkdate (year d) (month d) (day d - 1)
  else if (1 <? month d)%Z
       then mkdate (year d) (month d - 1)
                   (days_in_month (year d) (month d - 1))
       else mkdate (year d - 1) 12 31.

Definition add_days (d : date) (n : nat) : date := Nat.iter n next_day d.

(** [d + timedelta(days=n)]: [OverflowError] (here [None]) past the year
    9999. *)
Definition timedelta_add (d : date) (n : nat) : option date :=
  let r := add_days d n in
  if (year r <=? 9999)%Z then Some r else None.

(** [d - timedelta(days=1)]: [OverflowError] before the year 1. *)
Definition timedelta_sub_day (d : date) : option date :=
  let r := prev_day d in
  if (1 <=? year r)%Z then Some r else None.

(** The button "<": [(curr - timedelta(days=1)).replace(day=1)]. *)
Definition nav_prev (curr : date) : option date :=
  match timedelta_sub_day curr with
  | Some d => replace_day d 1
  | None => None
  end.

(** The button ">": [(curr + timedelta(days=32)).replace(day=1)]. *)
Definition nav_next (curr : date) : option date :=
  match timedelta_add curr 32 with
  | Some d => replace_day d 1
  | None => None
  end.

Local Open Scope Q_scope.

(** ** The extraction loop of [fetch_data] in [generate_chart.py] *)

(** [v == "s"] *)
Definition eq_str (v : json) (s : string) : bool := negb (ne_str v s).

(** One turn of the loop; the row is [{"date": ..., "minutes": ...}]. *)
Definition chart_row_of_page (page : json) : result (option RawRow) :=
  props <- subscript page "properties" ;;
  date_prop <- dict_get props PROPERTY_DATE JNull ;;
  skip <- (if negb (truthy date_prop) then Ok true
           else dv <- subscript date_prop "date" ;;
                Ok (negb (truthy dv))) ;;
  if skip : bool then Ok None
  else
    dv <- subscript date_prop "date" ;;
    date_str <- subscript dv "start" ;;
    time_prop <- dict_get props PROPERTY_TIME JNull ;;
    minutes <- (if truthy time_prop then
                  ty <- subscript time_prop "type" ;;
                  if eq_str ty "number" then
                    n <- subscript time_prop "number" ;;
                    Ok (py_or n (JNum 0))
                  else Ok (JNum 0)
                else Ok (JNum 0)) ;;
    Ok (Some (mkRaw date_str minutes)).

Fixpoint chart_collect_rows (results : list json) : result (list RawRow) :=
  match results with
  | [] => Ok []
  | page :: rest =>
      r <- chart_row_of_page page ;;
      rs <- chart_collect_rows rest ;;
      Ok (match r with Some x => x :: rs | None => rs end)
  end.

(** ** Auxiliary notions and sample data *)

Definition date_lt (a b : date) : Prop := date_ltb a b = true.

(** Dates well formed but for the upper bound on the year. *)
Definition wf_date (d : date) : Prop :=
  (1 <= year d /\ 1 <= month d <= 12 /\
   1 <= day d <= days_in_month (year d) (month d))%Z.

(** Chronological order of the rows of the activity frame. *)
Definition obs_le (a b : Obs) : Prop := date_ltb (Date b) (Date a) = false.

(** Equality of the numbers of a column that may hold NaN. *)
Definition option_Qeq (a b : option Q) : Prop :=
  match a, b with
  | Some x, Some y => x == y
  | None, None => True
  | _, _ => False
  end.

(** Two rows of the daily frame with the same date and equal numbers. *)
Definition row_equiv (r r' : DailyRow) : Prop :=
  dDate r = dDate r' /\ dLearningTime r == dLearningTime r' /\
  Cumulative_Time r == Cumulative_Time r' /\
  option_Qeq (Moving_Avg_60d r) (Moving_Avg_60d r').

Definition flat_series : list DailyRow :=
  [ mkDaily (mkdate 2026 1 1) 5 5 (Some 5);
    mkDaily (mkdate 2026 1 2) 5 10 (Some (10 # 2)) ].

Definition obs_after_idle_day : list Obs :=
  [ mkObs (mkdate 2025 12 31) 0; mkObs (mkdate 2026 1 1) 30 ].

Definition goal_df_example : list Goal := [ mkGoal (mkdate 2026 1 1) 600 ].

Definition activity_props_example : list (string * notion_prop) :=
  [ (PROPERTY_DATE, NDate (Some "2026-01-03"%string));
    (PROPERTY_TIME, NNumber None) ].


Definition negative_page : json :=
  encode_page [ (PROPERTY_DATE, NDate (Some "2026-01-01"%string));
                (PROPERTY_TIME, NNumber (Some (-5 # 1))) ].

Definition mistyped_date_props : list (string * notion_prop) :=
  [ (PROPERTY_DATE, NOther "rich_text" (JArr []));
    (PROPERTY_TIME, NNumber (Some 30)) ].

(** * Verification *)

(** ** Sums, running sums and sliding windows *)

Section Columns.

Lemma fold_left_Qplus_acc (xs : list Q) :
  forall a, fold_left Qplus xs a == a + Qsum xs.
Proof.
  unfold Qsum. induction xs as [|x xs IH]; intros a; simpl.
  - ring.
  - rewrite IH, (IH (0 + x)). ring.
Qed.

Lemma Qsum_cons (x : Q) (xs : list Q) : Qsum (x :: xs) == x + Qsum xs.
Proof.
  unfold Qsum at 1. simpl. rewrite fold_left_Qplus_acc. ring.
Qed.

Lemma Qsum_app (xs ys : list Q) : Qsum (xs ++ ys) == Qsum xs + Qsum ys.
Proof.
  induction xs as [|x xs IH]; simpl.
  - unfold Qsum at 2. simpl. ring.
  - rewrite !Qsum_cons, IH. ring.
Qed.

Lemma Qsum_nonneg (xs : list Q) :
  (forall x, In x xs -> 0 <= x) -> 0 <= Qsum xs.
Proof.
  induction xs as [|x xs IH]; intros H.
  - unfold Qsum. simpl. lra.
  - rewrite Qsum_cons.
    assert (0 <= x) by (apply H; now left).
    assert (0 <= Qsum xs) by (apply IH; intros; apply H; now right).
    lra.
Qed.

Lemma cumsum_from_length (xs : list Q) :
  forall acc, length (cumsum_from acc xs) = length xs.
Proof.
  induction xs as [|x xs IH]; intros acc; simpl; [reflexivity|].
  now rewrite IH.
Qed.

Lemma cumsum_from_nth (xs : list Q) :
  forall acc i c,
    nth_error (cumsum_from acc xs) i = Some c ->
    c == acc + Qsum (firstn (S i) xs).
Proof.
  induction xs as [|x xs IH]; intros acc i c H.
  - destruct i; discriminate.
  - destruct i as [|i]; simpl in H.
    + injection H as <-. simpl. rewrite Qsum_cons.
      unfold Qsum. simpl. ring.
    + apply IH in H. rewrite H.
      change (firstn (S (S i)) (x :: xs)) with (x :: firstn (S i) xs).
      rewrite Qsum_cons. ring.
Qed.

Lemma trim_short (w : nat) (l : list Q) :
  (length l <= w)%nat -> trim w l = l.
Proof.
  intros H. unfold trim.
  replace (length l - w)%nat with O by lia. reflexivity.
Qed.

Lemma trim_length (w : nat) (l : list Q) :
  length (trim w l) = Nat.min w (length l).
Proof.
  unfold trim. rewrite length_skipn. lia.
Qed.

Lemma trim_app_one (w : nat) (l : list Q) (x : Q) :
  (1 <= w)%nat -> trim w (trim w l ++ [x]) = trim w (l ++ [x]).
Proof.
  intros Hw.
  destruct (Nat.le_gt_cases (length l) w) as [Hs|Hl].
  - now rewrite (trim_short w l).
  - unfold trim at 1 3. rewrite !length_app, trim_length. simpl.
    replace (Nat.min w (length l) + 1 - w)%nat with 1%nat by lia.
    rewrite (skipn_app (length l + 1 - w)).
    replace (length l + 1 - w - length l)%nat with O by lia.
    unfold trim. simpl skipn at 3.
    replace (length l + 1 - w)%nat with (S (length l - w)) by lia.
    remember (length l - w)%nat as k eqn:Hk.
    assert (Hlt : (k < length l)%nat) by lia.
    clear Hk Hl Hw. revert k Hlt.
    induction l as [|a l IH]; intros k Hlt; simpl in Hlt; [lia|].
    destruct k as [|k]; simpl.
    + reflexivity.
    + destruct l as [|b l]; [simpl in Hlt; lia|].
      apply (IH k). simpl. simpl in Hlt. lia.
Qed.

Lemma rolling_mean_from_nth (w mp : nat) (xs : list Q) :
  (1 <= w)%nat ->
  forall pre i,
    nth_error (rolling_mean_from w mp (trim w pre) xs) i =
    match nth_error xs i with
    | None => None
    | Some _ =>
        let win := trim w (pre ++ firstn (S i) xs) in
        Some (if (mp <=? length win)%nat then Some (mean win) else None)
    end.
Proof.
  intros Hw. induction xs as [|x xs IH]; intros pre i.
  - destruct i; reflexivity.
  - destruct i as [|i]; simpl rolling_mean_from; simpl nth_error.
    + rewrite trim_app_one by assumption. reflexivity.
    + rewrite trim_app_one by assumption. rewrite IH.
      destruct (nth_error xs i); [|reflexivity].
      change (firstn (S (S i)) (x :: xs)) with (x :: firstn (S i) xs).
      now rewrite <- app_assoc.
Qed.

Lemma rolling_mean_length (w mp : nat) (xs : list Q) :
  forall buf, length (rolling_mean_from w mp buf xs) = length xs.
Proof.
  induction xs as [|x xs IH]; intros buf; simpl; [reflexivity|].
  now rewrite IH.
Qed.

(** The window of the [i]-th point is the stretch of the column from
    index [i - (w - 1)] (or 0) to [i]. *)
Lemma trailing_window (w : nat) (xs : list Q) (i : nat) :
  (i < length xs)%nat ->
  trim w (firstn (S i) xs) = firstn (S i - (S i - w)) (skipn (S i - w) xs).
Proof.
  intros Hi. unfold trim.
  rewrite length_firstn.
  replace (Nat.min (S i) (length xs)) with (S i) by lia.
  rewrite firstn_skipn_comm.
  replace (S i - w + (S i - (S i - w)))%nat with (S i) by lia.
  reflexivity.
Qed.

End Columns.

(** ** Frames built by zipping columns *)

Section Frames.

Context {A B C : Type}.

Lemma nth_error_map_combine (f : A * B -> C) (a : list A) (b : list B) :
  forall i r,
    nth_error (map f (combine a b)) i = Some r ->
    exists x y,
      nth_error a i = Some x /\ nth_error b i = Some y /\ r = f (x, y).
Proof.
  revert b. induction a as [|x a IH]; intros b i r H.
  - destruct i; discriminate.
  - destruct b as [|y b]; [destruct i; discriminate|].
    destruct i as [|i]; simpl in H.
    + injection H as <-. now exists x, y.
    + apply IH in H. exact H.
Qed.

Lemma map_fst_combine_eq (a : list A) (b : list B) :
  length a = length b -> map fst (combine a b) = a.
Proof.
  revert b. induction a as [|x a IH]; intros [|y b] H; simpl in *;
    try discriminate; [reflexivity|].
  f_equal. apply IH. lia.
Qed.

Lemma map_snd_combine_eq (a : list A) (b : list B) :
  length a = length b -> map snd (combine a b) = b.
Proof.
  revert b. induction a as [|x a IH]; intros [|y b] H; simpl in *;
    try discriminate; [reflexivity|].
  f_equal. apply IH. lia.
Qed.

End Frames.

(** ** Series Builder *)

Section SeriesBuilder.

Variable df : list Obs.

Local Abbreviation daily := (resample_D_sum (sort_values df)).
Local Abbreviation minutes := (map snd (resample_D_sum (sort_values df))).

Lemma analyze_data_unfold :
  analyze_data df =
  map (fun '((d, m), (c, a)) => mkDaily d m c a)
      (combine daily (combine (cumsum minutes) (rolling_mean 60 1 minutes))).
Proof.
  destruct df; reflexivity.
Qed.

Lemma columns_length :
  length (combine (cumsum minutes) (rolling_mean 60 1 minutes)) = length daily.
Proof.
  rewrite length_combine. unfold cumsum, rolling_mean.
  rewrite cumsum_from_length, rolling_mean_length, length_map. lia.
Qed.

Lemma analyze_data_dates :
  map dDate (analyze_data df) = map fst daily.
Proof.
  rewrite analyze_data_unfold, map_map.
  transitivity
    (map fst (map fst (combine daily (combine (cumsum minutes)
                                        (rolling_mean 60 1 minutes))))).
  - rewrite map_map. apply map_ext. now intros [[d m] [c a]].
  - rewrite map_fst_combine_eq; [reflexivity|].
    symmetry; apply columns_length.
Qed.

Lemma analyze_data_minutes :
  map dLearningTime (analyze_data df) = minutes.
Proof.
  rewrite analyze_data_unfold, map_map.
  transitivity
    (map snd (map fst (combine daily (combine (cumsum minutes)
                                        (rolling_mean 60 1 minutes))))).
  - rewrite map_map. apply map_ext. now intros [[d m] [c a]].
  - rewrite map_fst_combine_eq; [reflexivity|].
    symmetry; apply columns_length.
Qed.

Lemma analyze_data_nth (i : nat) (r : DailyRow) :
  nth_error (analyze_data df) i = Some r ->
  nth_error daily i = Some (dDate r, dLearningTime r) /\
  nth_error (cumsum minutes) i = Some (Cumulative_Time r) /\
  nth_error (rolling_mean 60 1 minutes) i = Some (Moving_Avg_60d r).
Proof.
  rewrite analyze_data_unfold. intros H.
  apply nth_error_map_combine in H.
  destruct H as ([d m] & ca & Hd & Hca & ->).
  rewrite <- (map_id (combine _ _)) in Hca.
  apply nth_error_map_combine in Hca.
  destruct Hca as (c & a & Hc & Ha & ->).
  simpl. auto.
Qed.

Lemma cumulative_time_nth (i : nat) (r : DailyRow) :
  nth_error (analyze_data df) i = Some r ->
  Cumulative_Time r ==
  Qsum (firstn (S i) (map dLearningTime (analyze_data df))).
Proof.
  intros H. apply analyze_data_nth in H. destruct H as (_ & Hc & _).
  apply cumsum_from_nth in Hc. rewrite Hc, analyze_data_minutes. ring.
Qed.

End SeriesBuilder.

(** ** Daily bins *)

Section Bins.

Lemma bin_sum_cons (r : Obs) (l : list Obs) (d : date) :
  bin_sum (r :: l) d ==
  (if date_eqb (Date r) d then LearningTime r else 0) + bin_sum l d.
Proof.
  unfold bin_sum. simpl. destruct (date_eqb (Date r) d); simpl.
  - apply Qsum_cons.
  - ring.
Qed.

Lemma bin_sum_insert (r : Obs) (l : list Obs) (d : date) :
  bin_sum (insert_by_date r l) d == bin_sum (r :: l) d.
Proof.
  induction l as [|h l IH]; simpl.
  - reflexivity.
  - destruct (date_ltb (Date r) (Date h)); [reflexivity|].
    rewrite (bin_sum_cons h), IH, !bin_sum_cons. ring.
Qed.

Lemma bin_sum_sort (l : list Obs) (d : date) :
  bin_sum (sort_values l) d == bin_sum l d.
Proof.
  induction l as [|r l IH]; simpl; [reflexivity|].
  now rewrite bin_sum_insert, !bin_sum_cons, IH.
Qed.

Lemma bin_sum_nonneg (l : list Obs) (d : date) :
  (forall o, In o l -> 0 <= LearningTime o) -> 0 <= bin_sum l d.
Proof.
  intros H. unfold bin_sum. apply Qsum_nonneg.
  intros x Hx. apply in_map_iff in Hx. destruct Hx as (o & <- & Ho).
  apply filter_In in Ho. apply H, Ho.
Qed.

Lemma resample_row (sdf : list Obs) (d : date) (m : Q) :
  In (d, m) (resample_D_sum sdf) -> m = bin_sum sdf d.
Proof.
  unfold resample_D_sum. destruct sdf as [|r0 t]; [contradiction|].
  intros H. apply in_map_iff in H. destruct H as (d' & E & _).
  now injection E as <- <-.
Qed.

Lemma Qsum_firstn_mono (xs : list Q) :
  (forall x, In x xs -> 0 <= x) ->
  forall i j, (i <= j)%nat -> Qsum (firstn i xs) <= Qsum (firstn j xs).
Proof.
  induction xs as [|x xs IH]; intros Hpos i j Hij.
  - rewrite !firstn_nil. lra.
  - destruct i as [|i].
    + simpl firstn at 1. unfold Qsum at 1. simpl.
      apply Qsum_nonneg. intros y Hy. apply Hpos.
      rewrite <- (firstn_skipn j (x :: xs)). apply in_or_app. now left.
    + destruct j as [|j]; [lia|]. simpl firstn. rewrite !Qsum_cons.
      assert (Qsum (firstn i xs) <= Qsum (firstn j xs)).
      { apply IH; [|lia]. intros; apply Hpos; now right. }
      lra.
Qed.

End Bins.

(** C1: in the daily series of [analyze_data] the 60-day moving average
    of the point at index [i] is defined and is the arithmetic mean of
    the gap-filled daily minutes at the indices from [max 0 (i - 59)] to
    [i], a window of [min 60 (i + 1)] days. *)
Theorem moving_avg_60d_is_trailing_mean
    (df : list Obs) (i : nat) (r : DailyRow) :
  nth_error (analyze_data df) i = Some r ->
  let minutes := map dLearningTime (analyze_data df) in
  let lo := (i - 59)%nat in
  let window := firstn (S i - lo) (skipn lo minutes) in
  length window = Nat.min 60 (S i) /\
  (forall k, (k < length window)%nat ->
             nth_error window k = nth_error minutes (lo + k)) /\
  Moving_Avg_60d r =
    Some (Qsum window / inject_Z (Z.of_nat (Nat.min 60 (S i)))).
Proof.
  intros H minutes lo window.
  assert (Hi : (i < length minutes)%nat).
  { subst minutes. rewrite length_map. apply nth_error_Some. congruence. }
  assert (Hlen : length window = Nat.min 60 (S i)).
  { subst window lo. rewrite length_firstn, length_skipn. lia. }
  split; [exact Hlen|]. split.
  - intros k Hk. subst window.
    rewrite nth_error_firstn.
    replace (k <? S i - lo)%nat with true
      by (symmetry; apply Nat.ltb_lt; lia).
    now rewrite nth_error_skipn.
  - apply analyze_data_nth in H. destruct H as (_ & _ & Hma).
    unfold rolling_mean in Hma.
    change (@nil Q) with (trim 60 (@nil Q)) in Hma.
    rewrite rolling_mean_from_nth in Hma by lia.
    rewrite <- analyze_data_minutes in Hma. fold minutes in Hma.
    destruct (nth_error minutes i) eqn:E;
      [|apply nth_error_None in E; lia].
    cbv zeta in Hma. rewrite app_nil_l in Hma.
    rewrite trailing_window in Hma by exact Hi.
    change (S i - 60)%nat with lo in Hma. fold window in Hma.
    rewrite Hlen in Hma.
    replace (1 <=? Nat.min 60 (S i))%nat with true in Hma
      by (symmetry; apply Nat.leb_le; lia).
    injection Hma as <-. unfold mean. now rewrite Hlen.
Qed.

Lemma moving_avg_60d_example :
  let r := mkDaily (mkdate 2026 1 3) 10 60 (Some (60 # 3)) in
  nth_error (analyze_data obs_scenario) 2 = Some r /\
  Moving_Avg_60d r = Some (Qsum [50; 0; 10] / inject_Z 3).
Proof.
  intros r. split; [reflexivity|].
  exact (proj2 (proj2
    (moving_avg_60d_is_trailing_mean obs_scenario 2 r eq_refl))).
Defined.

(** C4: [Cumulative_Time] of each point of the daily series is the sum
    of the daily minutes up to and including that point, where the
    minutes of a day are the sum of that day's observations (0 on a day
    without any); with non-negative observations it never decreases; and
    the observations 30 and 20 on 2026-01-01 and 10 on 2026-01-03 give
    the three points (50, 50), (0, 50), (10, 60). *)
Theorem cumulative_total_is_running_sum (df : list Obs) :
  let series := analyze_data df in
  let minutes := map dLearningTime series in
  (forall i r, nth_error series i = Some r ->
     Cumulative_Time r == Qsum (firstn (S i) minutes) /\
     dLearningTime r ==
       Qsum (map LearningTime
               (filter (fun o => date_eqb (Date o) (dDate r)) df))) /\
  ((forall o, In o df -> 0 <= LearningTime o) ->
   forall i j r r',
     (i <= j)%nat ->
     nth_error series i = Some r -> nth_error series j = Some r' ->
     Cumulative_Time r <= Cumulative_Time r') /\
  map (fun r => (dDate r, dLearningTime r, Cumulative_Time r))
      (analyze_data obs_scenario) =
  [ (mkdate 2026 1 1, 50, 50); (mkdate 2026 1 2, 0, 50);
    (mkdate 2026 1 3, 10, 60) ].
Proof.
  intros series minutes.
  assert (Hcum : forall i r, nth_error series i = Some r ->
            Cumulative_Time r == Qsum (firstn (S i) minutes)).
  { intros i r H. now apply cumulative_time_nth. }
  assert (Hbin : forall i r, nth_error series i = Some r ->
            dLearningTime r == bin_sum df (dDate r)).
  { intros i r H. apply analyze_data_nth in H. destruct H as (Hd & _).
    apply nth_error_In, resample_row in Hd. rewrite Hd.
    apply bin_sum_sort. }
  split; [|split].
  - intros i r H. split; [now apply Hcum | now apply (Hbin i)].
  - intros Hpos i j r r' Hij Hi Hj.
    rewrite (Hcum _ _ Hi), (Hcum _ _ Hj).
    apply Qsum_firstn_mono; [|lia].
    intros x Hx. subst minutes. apply in_map_iff in Hx.
    destruct Hx as (p & <- & Hp). apply In_nth_error in Hp.
    destruct Hp as (k & Hk). rewrite (Hbin _ _ Hk).
    now apply bin_sum_nonneg.
  - reflexivity.
Qed.

Lemma cumulative_total_example :
  (forall o, In o obs_scenario -> 0 <= LearningTime o) /\
  Cumulative_Time (mkDaily (mkdate 2026 1 1) 50 50 (Some 50)) <=
  Cumulative_Time (mkDaily (mkdate 2026 1 3) 10 60 (Some (60 # 3))).
Proof.
  assert (Hpos : forall o, In o obs_scenario -> 0 <= LearningTime o).
  { intros o [<-|[<-|[<-|[]]]]; discriminate. }
  split; [exact Hpos|].
  exact (proj1 (proj2 (cumulative_total_is_running_sum obs_scenario))
           Hpos 0%nat 2%nat _ _ (le_S _ _ (le_S _ _ (le_n 0)))
           eq_refl eq_refl).
Defined.

(** ** Display domain of the moving average *)

Section Domain.

Lemma series_min_spec (xs : list Q) :
  forall x,
    In (series_min x xs) (x :: xs) /\
    forall v, In v (x :: xs) -> series_min x xs <= v.
Proof.
  induction xs as [|y xs IH]; intros x.
  - split; [now left|]. intros v [<-|[]]. apply Qle_refl.
  - unfold series_min. simpl fold_left.
    fold (series_min (if Qle_bool y x then y else x) xs).
    destruct (IH (if Qle_bool y x then y else x)) as [Hin Hle].
    split.
    + destruct Hin as [E|Hin]; [|now right; right].
      rewrite <- E. destruct (Qle_bool y x); [right; now left|now left].
    + assert (Hm : series_min (if Qle_bool y x then y else x) xs
                   <= (if Qle_bool y x then y else x))
        by (apply Hle; now left).
      intros v [<-|[<-|Hv]].
      * destruct (Qle_bool y x) eqn:E; [|exact Hm].
        apply Qle_bool_iff in E. lra.
      * destruct (Qle_bool y x) eqn:E; [exact Hm|].
        assert (~ y <= x) by (rewrite <- Qle_bool_iff; congruence). lra.
      * apply Hle. now right.
Qed.

Lemma series_max_spec (xs : list Q) :
  forall x,
    In (series_max x xs) (x :: xs) /\
    forall v, In v (x :: xs) -> v <= series_max x xs.
Proof.
  induction xs as [|y xs IH]; intros x.
  - split; [now left|]. intros v [<-|[]]. apply Qle_refl.
  - unfold series_max. simpl fold_left.
    fold (series_max (if Qle_bool x y then y else x) xs).
    destruct (IH (if Qle_bool x y then y else x)) as [Hin Hle].
    split.
    + destruct Hin as [E|Hin]; [|now right; right].
      rewrite <- E. destruct (Qle_bool x y); [right; now left|now left].
    + assert (Hm : (if Qle_bool x y then y else x)
                   <= series_max (if Qle_bool x y then y else x) xs)
        by (apply Hle; now left).
      intros v [<-|[<-|Hv]].
      * destruct (Qle_bool x y) eqn:E; [|exact Hm].
        apply Qle_bool_iff in E. lra.
      * destruct (Qle_bool x y) eqn:E; [exact Hm|].
        assert (~ x <= y) by (rewrite <- Qle_bool_iff; congruence). lra.
      * apply Hle. now right.
Qed.

Lemma max0_Qmax (x : Q) : max0 x == Qmax 0 x.
Proof.
  unfold max0, Qgtb. destruct (Qle_bool x 0) eqn:E; simpl.
  - apply Qle_bool_iff in E. symmetry. apply Q.max_l. exact E.
  - assert (~ x <= 0) by (rewrite <- Qle_bool_iff; congruence).
    symmetry. apply Q.max_r. lra.
Qed.

End Domain.

(** C8: the display domain of a month view is [0, 300] when the slice
    shows no moving-average value; otherwise it is
    [max(0, min_v - padding), max_v + padding] for the least and the
    greatest visible value, with padding = (max_v - min_v) * 0.2, or 20
    when that is exactly 0; when every visible value is 5 it is
    [0, 25]. *)
Theorem moving_avg_display_domain_rule
    (df : list DailyRow) (goal_df : list Goal) (current_month_start : date) :
  let view := month_view df goal_df current_month_start in
  let visible := dropna (map (fun r => Moving_Avg_60d (mDaily r)) (points view)) in
  let low := fst (moving_avg_display_domain view) in
  let high := snd (moving_avg_display_domain view) in
  (visible = [] -> low = 0 /\ high = 300) /\
  (visible <> [] ->
   exists min_v max_v,
     In min_v visible /\ In max_v visible /\
     (forall v, In v visible -> min_v <= v /\ v <= max_v) /\
     let padding := (max_v - min_v) * (2 # 10) in
     let padding := if Qeq_bool padding 0 then 20 else padding in
     low == Qmax 0 (min_v - padding) /\ high == max_v + padding) /\
  (visible <> [] -> (forall v, In v visible -> v == 5) ->
   low == 0 /\ high == 25).
Proof.
  intros view visible low high.
  assert (Hdom : moving_avg_display_domain view =
                 ma_domain (map (fun r => Moving_Avg_60d (mDaily r))
                                (points view))) by reflexivity.
  subst low high. rewrite Hdom. unfold ma_domain. fold visible.
  destruct visible as [|v vs] eqn:Ev.
  - split; [intros _; now split|]. split; intros H; now destruct H.
  - destruct (series_min_spec vs v) as [Hmin_in Hmin].
    destruct (series_max_spec vs v) as [Hmax_in Hmax].
    split; [discriminate|]. split.
    + intros _. exists (series_min v vs), (series_max v vs).
      split; [exact Hmin_in|]. split; [exact Hmax_in|]. split.
      * intros x Hx. split; [now apply Hmin | now apply Hmax].
      * cbv zeta. simpl fst. simpl snd. split; [apply max0_Qmax|reflexivity].
    + intros _ H5. cbv zeta. simpl fst. simpl snd.
      assert (E1 : series_min v vs == 5) by now apply H5.
      assert (E2 : series_max v vs == 5) by now apply H5.
      assert (Ep : Qeq_bool ((series_max v vs - series_min v vs) * (2 # 10)) 0
                   = true).
      { apply Qeq_bool_iff. rewrite E1, E2. reflexivity. }
      rewrite Ep, max0_Qmax, E1, E2. split; reflexivity.
Qed.

Lemma moving_avg_display_domain_example :
  let view := month_view flat_series [] (mkdate 2026 1 1) in
  fst (moving_avg_display_domain view) == 0 /\
  snd (moving_avg_display_domain view) == 25.
Proof.
  refine (proj2 (proj2 (moving_avg_display_domain_rule
                          flat_series [] (mkdate 2026 1 1))) _ _).
  - discriminate.
  - intros v [<-|[<-|[]]]; reflexivity.
Defined.

(** C9 (the code departs from it): a record of -5 minutes makes the
    visible average negative, and the lower bound is still floored at 0
    where [min_v - padding] is -25. *)
Lemma negative_average_is_floored :
  exists obs,
    process_raw_data [negative_page] = Ok obs /\
    let view := month_view (analyze_data obs) [] (mkdate 2026 1 1) in
    map (fun r => Moving_Avg_60d (mDaily r)) (points view) = [Some (-5 # 1)] /\
    fst (moving_avg_display_domain view) == 0 /\
    ~ fst (moving_avg_display_domain view) == -5 - 20.
Proof.
  eexists. split; [reflexivity|]. cbv zeta.
  split; [reflexivity|]. split; [reflexivity|]. discriminate.
Qed.

(** ** Target curve *)

Section Target.

Lemma inject_Z_pos (n : Z) : (0 < n)%Z -> 0 < inject_Z n.
Proof.
  intros H. unfold Qlt. simpl. lia.
Qed.

Lemma inject_Z_nonzero (n : Z) : (0 < n)%Z -> ~ inject_Z n == 0.
Proof.
  intros H E. apply inject_Z_pos in H. rewrite E in H.
  now apply Qlt_irrefl in H.
Qed.

Lemma Qgtb_lt (a b : Q) : Qgtb a b = true <-> b < a.
Proof.
  unfold Qgtb. rewrite negb_true_iff. split; intros H.
  - apply Qnot_le_lt. rewrite <- Qle_bool_iff. congruence.
  - destruct (Qle_bool a b) eqn:E; [|reflexivity].
    apply Qle_bool_iff in E. lra.
Qed.

Lemma valid_date_fields (d : date) :
  valid_date d = true ->
  (1 <= year d <= 9999 /\ 1 <= month d <= 12 /\
   1 <= day d <= days_in_month (year d) (month d))%Z.
Proof.
  unfold valid_date. rewrite !andb_true_iff, !Z.leb_le. tauto.
Qed.

Lemma days_in_month_bounds (y m : Z) :
  (1 <= m <= 12)%Z -> (28 <= days_in_month y m <= 31)%Z.
Proof.
  intros Hm. unfold days_in_month.
  assert (m = 1 \/ m = 2 \/ m = 3 \/ m = 4 \/ m = 5 \/ m = 6 \/ m = 7 \/
          m = 8 \/ m = 9 \/ m = 10 \/ m = 11 \/ m = 12)%Z as Hc by lia.
  repeat (destruct Hc as [->|Hc]); try subst m; simpl;
    try lia; destruct (isleap y); simpl; lia.
Qed.

Lemma day_range_nth (n : Z) (i : nat) :
  (i < Z.to_nat n)%nat ->
  nth_error (day_range n) i = Some (Z.of_nat (S i)).
Proof.
  intros Hi. unfold day_range.
  rewrite nth_error_map, nth_error_seq.
  replace (i <? Z.to_nat n)%nat with true
    by (symmetry; now apply Nat.ltb_lt).
  reflexivity.
Qed.

Lemma day_range_In (n d : Z) : In d (day_range n) -> (1 <= d <= n)%Z.
Proof.
  unfold day_range. rewrite in_map_iff. intros (k & <- & Hk).
  apply in_seq in Hk. lia.
Qed.

Lemma day_range_length (n : Z) : length (day_range n) = Z.to_nat n.
Proof.
  unfold day_range. now rewrite length_map, length_seq.
Qed.

(** The [try ... except ValueError: continue] of the target loop never
    skips a day of a valid month. *)
Lemma target_data_positive (g : Q) (cms : date) :
  0 < g ->
  target_data g cms =
  map (fun d => mkTarget (mkdate (year cms) (month cms) d)
                  (g * (inject_Z d /
                        inject_Z (days_in_month (year cms) (month cms)))))
      (day_range (days_in_month (year cms) (month cms))).
Proof.
  intros Hg. unfold target_data.
  apply Qgtb_lt in Hg. rewrite Hg.
  generalize (day_range_In (days_in_month (year cms) (month cms))).
  induction (day_range (days_in_month (year cms) (month cms)))
    as [|d l IH]; intros Hin; simpl; [reflexivity|].
  unfold replace_day at 1.
  assert (Hd : (1 <= d <= days_in_month (year cms) (month cms))%Z)
    by (apply Hin; now left).
  replace ((1 <=? d)%Z && (d <=? days_in_month (year cms) (month cms))%Z)
    with true by (symmetry; apply andb_true_iff; split; apply Z.leb_le; lia).
  simpl. f_equal. apply IH. intros; apply Hin; now right.
Qed.

Lemma target_data_not_positive (g : Q) (cms : date) :
  ~ 0 < g -> target_data g cms = [].
Proof.
  intros Hg. unfold target_data.
  destruct (Qgtb g 0) eqn:E; [|reflexivity].
  apply Qgtb_lt in E. contradiction.
Qed.

Lemma target_value_lt (g : Q) (dim a b : Z) :
  0 < g -> (0 < dim)%Z -> (a < b)%Z ->
  g * (inject_Z a / inject_Z dim) < g * (inject_Z b / inject_Z dim).
Proof.
  intros Hg Hdim Hab.
  assert (Hd : 0 < inject_Z dim) by now apply inject_Z_pos.
  assert (Hi : 0 < / inject_Z dim) by now apply Qinv_lt_0_compat.
  apply Qmult_lt_l; [exact Hg|].
  unfold Qdiv. apply Qmult_lt_r; [exact Hi|].
  now rewrite <- Zlt_Qlt.
Qed.

Lemma target_value_full (g : Q) (dim : Z) :
  (0 < dim)%Z -> g * (inject_Z dim / inject_Z dim) == g.
Proof.
  intros Hdim. field. now apply inject_Z_nonzero.
Qed.

Lemma current_goal_absent (goal_df : list Goal) (cms : date) :
  (forall g, In g goal_df -> date_eqb (Month g) cms = false) ->
  current_goal_minutes goal_df cms = 0.
Proof.
  intros H. unfold current_goal_minutes.
  destruct (filter (fun g => date_eqb (Month g) cms) goal_df) as [|g l] eqn:E;
    [reflexivity|].
  assert (Hg : In g (filter (fun g => date_eqb (Month g) cms) goal_df))
    by (rewrite E; now left).
  apply filter_In in Hg. destruct Hg as [Hin Heq].
  rewrite (H g Hin) in Heq. discriminate.
Qed.

End Target.

(** C2: the target sequence of a month view is non-empty exactly when
    the goal found for the month is strictly positive.  Then it has one
    point per calendar day [d] from 1 to the number of days of the month
    (29 for February exactly in leap years), dated that day and worth
    [goal * (d / days_in_month)]: linear in [d], strictly increasing and
    ending at the full goal.  With a goal that is zero or absent the
    sequence is empty. *)
Theorem target_curve_rule
    (df : list DailyRow) (goal_df : list Goal) (current_month_start : date) :
  valid_date current_month_start = true ->
  let y := year current_month_start in
  let m := month current_month_start in
  let goal := current_goal_minutes goal_df current_month_start in
  let dim := days_in_month y m in
  let targets := target_points (month_view df goal_df current_month_start) in
  (targets <> [] <-> 0 < goal) /\
  (0 < goal ->
   length targets = Z.to_nat dim /\
   (forall d, (1 <= d <= dim)%Z ->
      exists t,
        nth_error targets (Z.to_nat (d - 1)) = Some t /\
        tDate t = mkdate y m d /\
        Target_Cumulative t = goal * (inject_Z d / inject_Z dim) /\
        Target_Cumulative t == (goal / inject_Z dim) * inject_Z d) /\
   (forall i j t t',
      (i < j)%nat ->
      nth_error targets i = Some t -> nth_error targets j = Some t' ->
      Target_Cumulative t < Target_Cumulative t') /\
   (exists t, nth_error targets (length targets - 1) = Some t /\
              Target_Cumulative t == goal)) /\
  (~ 0 < goal -> targets = []) /\
  ((forall g, In g goal_df -> date_eqb (Month g) current_month_start = false) ->
   targets = []) /\
  ((28 <= dim <= 31)%Z /\
   (dim = 29%Z <->
    m = 2%Z /\ (y mod 4 = 0 /\ (y mod 100 <> 0 \/ y mod 400 = 0))%Z)).
Proof.
  intros Hvalid y m goal dim targets.
  apply valid_date_fields in Hvalid. destruct Hvalid as (Hy & Hm & Hday).
  fold y m in Hy, Hm.
  assert (Hdim : (28 <= dim <= 31)%Z) by now apply days_in_month_bounds.
  assert (Hpos : 0 < goal ->
            targets =
            map (fun d => mkTarget (mkdate y m d)
                            (goal * (inject_Z d / inject_Z dim)))
                (day_range dim)).
  { intros Hg. subst targets. simpl. now apply target_data_positive. }
  assert (Hzero : ~ 0 < goal -> targets = []).
  { intros Hg. subst targets. simpl. now apply target_data_not_positive. }
  assert (Hnth : 0 < goal -> forall i, (i < Z.to_nat dim)%nat ->
            nth_error targets i =
            Some (mkTarget (mkdate y m (Z.of_nat (S i)))
                    (goal * (inject_Z (Z.of_nat (S i)) / inject_Z dim)))).
  { intros Hg i Hi. rewrite (Hpos Hg), nth_error_map, day_range_nth by exact Hi.
    reflexivity. }
  assert (Hidx : 0 < goal -> forall i t, nth_error targets i = Some t ->
            (i < Z.to_nat dim)%nat).
  { intros Hg i t H.
    assert (Hl : (i < length targets)%nat)
      by (apply nth_error_Some; congruence).
    rewrite (Hpos Hg), length_map, day_range_length in Hl. exact Hl. }
  split; [|split; [|split; [|split]]].
  - split.
    + intros Hne. destruct (Qlt_le_dec 0 goal) as [Hg|Hg]; [exact Hg|].
      exfalso. apply Hne, Hzero. lra.
    + intros Hg E. pose proof (Hnth Hg 0%nat ltac:(lia)) as H0.
      rewrite E in H0. discriminate.
  - intros Hg. split; [|split; [|split]].
    + now rewrite (Hpos Hg), length_map, day_range_length.
    + intros d Hd. eexists. split; [|split; [|split]].
      * rewrite (Hnth Hg) by lia.
        replace (Z.of_nat (S (Z.to_nat (d - 1)))) with d by lia.
        reflexivity.
      * reflexivity.
      * reflexivity.
      * simpl. field. apply inject_Z_nonzero. lia.
    + intros i j t t' Hij Hi Hj.
      pose proof (Hidx Hg _ _ Hi) as Li. pose proof (Hidx Hg _ _ Hj) as Lj.
      rewrite (Hnth Hg i Li) in Hi. rewrite (Hnth Hg j Lj) in Hj.
      injection Hi as <-. injection Hj as <-. cbn [Target_Cumulative].
      apply target_value_lt; [exact Hg | lia | lia].
    + eexists. split.
      * rewrite (Hpos Hg), length_map, day_range_length.
        rewrite <- (Hpos Hg). apply (Hnth Hg). lia.
      * cbn [Target_Cumulative].
        replace (Z.of_nat (S (Z.to_nat dim - 1))) with dim by lia.
        apply target_value_full. lia.
  - exact Hzero.
  - intros Habs. apply Hzero. subst goal.
    rewrite (current_goal_absent _ _ Habs). apply Qlt_irrefl.
  - split; [exact Hdim|]. subst dim. unfold days_in_month, isleap.
    assert (m = 1 \/ m = 2 \/ m = 3 \/ m = 4 \/ m = 5 \/ m = 6 \/ m = 7 \/
            m = 8 \/ m = 9 \/ m = 10 \/ m = 11 \/ m = 12)%Z as Hc by lia.
    repeat (destruct Hc as [E|Hc]; [rewrite E; simpl; try (split; [lia|intros [? _]; lia])|]);
      try (rewrite Hc; simpl; split; [lia|intros [? _]; lia]).
    destruct (y mod 4 =? 0)%Z eqn:E4; destruct (y mod 100 =? 0)%Z eqn:E100;
      destruct (y mod 400 =? 0)%Z eqn:E400; simpl;
      rewrite ?Z.eqb_eq, ?Z.eqb_neq in *; split; intros; try lia;
      try (split; [reflexivity|]; split; [assumption|]; tauto);
      try (exfalso; tauto).
Qed.

(** ** Calendar facts *)

Section CalendarFacts.

Lemma date_ltb_spec (a b : date) :
  date_ltb a b = true <->
  (year a < year b \/
   (year a = year b /\
    (month a < month b \/ (month a = month b /\ day a < day b))))%Z.
Proof.
  unfold date_ltb.
  rewrite !orb_true_iff, !andb_true_iff, !orb_true_iff, !andb_true_iff,
          !Z.ltb_lt, !Z.eqb_eq.
  tauto.
Qed.

Lemma date_ltb_false (a b : date) :
  date_ltb a b = false <-> ~ date_ltb a b = true.
Proof.
  destruct (date_ltb a b); split; intros; congruence.
Qed.

Lemma date_leb_spec (a b : date) :
  date_leb a b = true <-> ~ date_ltb b a = true.
Proof.
  unfold date_leb. rewrite negb_true_iff. apply date_ltb_false.
Qed.

Lemma date_eqb_eq (a b : date) : date_eqb a b = true <-> a = b.
Proof.
  unfold date_eqb. rewrite !andb_true_iff, !Z.eqb_eq.
  destruct a, b; simpl. split.
  - intros [[-> ->] ->]. reflexivity.
  - intros E. injection E as -> -> ->. auto.
Qed.

Lemma date_ltb_trans (a b c : date) :
  date_ltb a b = true -> date_ltb b c = true -> date_ltb a c = true.
Proof.
  rewrite !date_ltb_spec. lia.
Qed.

Lemma next_day_after (d : date) : date_ltb d (next_day d) = true.
Proof.
  rewrite date_ltb_spec. unfold next_day.
  destruct (day d <? days_in_month (year d) (month d))%Z; simpl; [lia|].
  destruct (month d <? 12)%Z eqn:E; simpl; [lia|]. lia.
Qed.

Lemma date_range_after (n : nat) :
  forall s d, In d (date_range (next_day s) n) -> date_ltb s d = true.
Proof.
  induction n as [|n IH]; intros s d H; [contradiction|].
  destruct H as [<-|H].
  - apply next_day_after.
  - eapply date_ltb_trans; [apply next_day_after|]. now apply IH.
Qed.

Lemma date_range_length (n : nat) :
  forall s, length (date_range s n) = n.
Proof.
  induction n as [|n IH]; intros s; simpl; [reflexivity|]. now rewrite IH.
Qed.

Lemma valid_date_wf (d : date) : valid_date d = true -> wf_date d.
Proof.
  intros H. apply valid_date_fields in H. unfold wf_date. lia.
Qed.

Lemma next_day_wf (d : date) : wf_date d -> wf_date (next_day d).
Proof.
  unfold wf_date, next_day. intros (Hy & Hm & Hd).
  destruct (day d <? days_in_month (year d) (month d))%Z eqn:E1; simpl.
  - apply Z.ltb_lt in E1. lia.
  - destruct (month d <? 12)%Z eqn:E2; simpl.
    + apply Z.ltb_lt in E2.
      pose proof (days_in_month_bounds (year d) (month d + 1)). lia.
    + pose proof (days_in_month_bounds (year d + 1) 1). lia.
Qed.

Lemma fold_right_add_snoc (l : list Z) (x : Z) :
  fold_right Z.add 0%Z (l ++ [x]) = (fold_right Z.add 0 l + x)%Z.
Proof.
  induction l as [|a l IH]; simpl; lia.
Qed.

Lemma days_before_month_succ (y m : Z) :
  (1 <= m)%Z ->
  days_before_month y (m + 1) =
  (days_before_month y m + days_in_month y m)%Z.
Proof.
  intros Hm. unfold days_before_month.
  replace (Z.to_nat (m + 1) - 1)%nat with (S (Z.to_nat m - 1)) by lia.
  rewrite seq_S, map_app. cbn [map]. rewrite fold_right_add_snoc.
  replace (Z.of_nat (1 + (Z.to_nat m - 1))) with m by lia.
  reflexivity.
Qed.

Lemma days_before_year_succ (y : Z) :
  days_before_year (y + 1) =
  (days_before_year y + 365 + (if isleap y then 1 else 0))%Z.
Proof.
  unfold days_before_year, isleap.
  replace (y + 1 - 1)%Z with y by lia.
  destruct (y mod 4 =? 0)%Z eqn:E4; destruct (y mod 100 =? 0)%Z eqn:E100;
    destruct (y mod 400 =? 0)%Z eqn:E400; simpl;
    rewrite ?Z.eqb_eq, ?Z.eqb_neq in *;
    Z.div_mod_to_equations; lia.
Qed.

Lemma days_before_year_mono (y y' : Z) :
  (y <= y')%Z -> (days_before_year y <= days_before_year y')%Z.
Proof.
  unfold days_before_year. intros H.
  Z.div_mod_to_equations. lia.
Qed.

Lemma month_table (y m : Z) :
  (1 <= m <= 12)%Z ->
  (0 <= days_before_month y m /\
   days_before_month y m + days_in_month y m
   <= 365 + (if isleap y then 1 else 0))%Z.
Proof.
  intros Hm.
  assert (m = 1 \/ m = 2 \/ m = 3 \/ m = 4 \/ m = 5 \/ m = 6 \/ m = 7 \/
          m = 8 \/ m = 9 \/ m = 10 \/ m = 11 \/ m = 12)%Z as Hc by lia.
  unfold days_before_month, days_in_month.
  repeat (destruct Hc as [->|Hc]); try subst m;
    destruct (isleap y); vm_compute; split; discriminate.
Qed.

Lemma year_length (y : Z) :
  (days_before_month y 12 + days_in_month y 12
   = 365 + (if isleap y then 1 else 0))%Z.
Proof.
  unfold days_before_month, days_in_month.
  destruct (isleap y); reflexivity.
Qed.

Lemma day_of_year_bounds (y m d : Z) :
  (1 <= m <= 12)%Z -> (1 <= d <= days_in_month y m)%Z ->
  (1 <= days_before_month y m + d <= 365 + (if isleap y then 1 else 0))%Z.
Proof.
  intros Hm Hd. pose proof (month_table y m Hm). lia.
Qed.

Lemma toordinal_next_day (d : date) :
  wf_date d -> toordinal (next_day d) = (toordinal d + 1)%Z.
Proof.
  unfold wf_date, next_day, toordinal. intros (Hy & Hm & Hd).
  destruct (day d <? days_in_month (year d) (month d))%Z eqn:E1; simpl.
  - lia.
  - apply Z.ltb_ge in E1. destruct (month d <? 12)%Z eqn:E2; simpl.
    + rewrite days_before_month_succ by lia. lia.
    + apply Z.ltb_ge in E2. assert (Em : month d = 12%Z) by lia.
      rewrite Em in *. rewrite days_before_year_succ.
      pose proof (year_length (year d)).
      change (days_before_month (year d + 1) 1) with 0%Z. lia.
Qed.

Lemma toordinal_bounds (d : date) :
  wf_date d ->
  (days_before_year (year d) + 1 <= toordinal d
   <= days_before_year (year d + 1))%Z.
Proof.
  intros (Hy & Hm & Hd). unfold toordinal.
  rewrite days_before_year_succ.
  pose proof (day_of_year_bounds (year d) (month d) (day d) Hm Hd). lia.
Qed.

Lemma toordinal_year_mono (d e : date) :
  wf_date d -> wf_date e ->
  (toordinal d <= toordinal e)%Z -> (year d <= year e)%Z.
Proof.
  intros Hd He H.
  destruct (Z.le_gt_cases (year d) (year e)) as [|Hlt]; [assumption|].
  pose proof (toordinal_bounds d Hd). pose proof (toordinal_bounds e He).
  pose proof (days_before_year_mono (year e + 1) (year d) ltac:(lia)). lia.
Qed.

(** Every day of the range is a well-formed date, [k] days after the
    start. *)
Lemma date_range_nth (n : nat) :
  forall s k d,
    wf_date s -> nth_error (date_range s n) k = Some d ->
    wf_date d /\ toordinal d = (toordinal s + Z.of_nat k)%Z /\ (k < n)%nat.
Proof.
  induction n as [|n IH]; intros s k d Hs H.
  - destruct k; discriminate.
  - destruct k as [|k]; simpl in H.
    + injection H as <-. repeat split; [apply Hs..|lia|lia].
    + apply IH in H; [|now apply next_day_wf].
      destruct H as (Hw & Ho & Hk). rewrite toordinal_next_day in Ho by exact Hs.
      repeat split; [apply Hw..|lia|lia].
Qed.

Lemma date_range_valid (first last d : date) :
  valid_date first = true -> valid_date last = true ->
  In d (date_range first (periods_between first last)) ->
  valid_date d = true.
Proof.
  intros Hf Hl Hin. apply In_nth_error in Hin. destruct Hin as (k & Hk).
  apply date_range_nth in Hk; [|now apply valid_date_wf].
  destruct Hk as (Hw & Ho & Hlt). unfold periods_between in Hlt.
  assert (Hy : (year d <= year last)%Z).
  { apply toordinal_year_mono; [exact Hw | now apply valid_date_wf | lia]. }
  apply valid_date_fields in Hl. destruct Hw as (? & ? & ?).
  unfold valid_date. rewrite !andb_true_iff, !Z.leb_le. lia.
Qed.

End CalendarFacts.

(** ** The daily index of the series *)

Section DailyIndex.

Lemma date_range_sorted (n : nat) :
  forall s, StronglySorted date_lt (date_range s n).
Proof.
  induction n as [|n IH]; intros s; simpl; constructor.
  - apply IH.
  - apply Forall_forall. intros d Hd. now apply (date_range_after n).
Qed.

Lemma insert_In (r o : Obs) (l : list Obs) :
  In o (insert_by_date r l) <-> o = r \/ In o l.
Proof.
  induction l as [|h l IH]; simpl.
  - intuition.
  - destruct (date_ltb (Date r) (Date h)); simpl; rewrite ?IH; intuition.
Qed.

Lemma sort_In (o : Obs) (l : list Obs) :
  In o (sort_values l) <-> In o l.
Proof.
  induction l as [|r l IH]; simpl; [reflexivity|].
  rewrite insert_In, IH. intuition.
Qed.

Lemma last_In {A} (l : list A) (d : A) : l <> [] -> In (last l d) l.
Proof.
  induction l as [|a l IH]; intros H; [contradiction|].
  destruct l as [|b l]; [now left|].
  right. apply IH. discriminate.
Qed.

Lemma resample_dates (sdf : list Obs) :
  map fst (resample_D_sum sdf) =
  match sdf with
  | [] => []
  | r0 :: _ =>
      date_range (Date r0)
                 (periods_between (Date r0) (Date (last sdf r0)))
  end.
Proof.
  unfold resample_D_sum. destruct sdf as [|r0 t]; [reflexivity|].
  rewrite map_map. simpl fst. apply map_id.
Qed.

Lemma series_dates_sorted (df : list Obs) :
  StronglySorted date_lt (map dDate (analyze_data df)).
Proof.
  rewrite analyze_data_dates, resample_dates.
  destruct (sort_values df); [constructor|apply date_range_sorted].
Qed.

Lemma series_dates_valid (df : list Obs) :
  (forall o, In o df -> valid_date (Date o) = true) ->
  forall r, In r (analyze_data df) -> valid_date (dDate r) = true.
Proof.
  intros Hv r Hr. apply (in_map dDate) in Hr.
  rewrite analyze_data_dates, resample_dates in Hr.
  destruct (sort_values df) as [|r0 t] eqn:E; [contradiction|].
  apply date_range_valid in Hr; [exact Hr| |].
  - apply Hv, sort_In. rewrite E. now left.
  - apply Hv, sort_In. rewrite E. apply last_In. discriminate.
Qed.

Lemma sorted_rows_split (rows pre post : list DailyRow) (x : DailyRow) :
  StronglySorted date_lt (map dDate rows) ->
  rows = pre ++ x :: post ->
  (forall p, In p pre -> date_ltb (dDate p) (dDate x) = true) /\
  (forall p, In p post -> date_ltb (dDate x) (dDate p) = true).
Proof.
  intros Hs ->. induction pre as [|a pre IH]; simpl in Hs.
  - apply StronglySorted_inv in Hs. destruct Hs as [_ Hall].
    split; [contradiction|]. intros p Hp.
    rewrite Forall_forall in Hall. apply Hall. now apply in_map.
  - apply StronglySorted_inv in Hs. destruct Hs as [Hs Hall].
    destruct (IH Hs) as [Hpre Hpost]. split; [|exact Hpost].
    intros p [<-|Hp]; [|now apply Hpre].
    rewrite Forall_forall in Hall. apply Hall.
    rewrite map_app. apply in_or_app. right. now left.
Qed.

End DailyIndex.

(** ** Month slice *)

Section MonthSlice.

Lemma filter_nth_split {A} (f : A -> bool) (l : list A) :
  forall j x,
    nth_error (filter f l) j = Some x ->
    exists pre post,
      l = pre ++ x :: post /\ length (filter f pre) = j /\ f x = true.
Proof.
  induction l as [|a l IH]; intros j x H.
  - destruct j; discriminate.
  - simpl in H. destruct (f a) eqn:Fa.
    + destruct j as [|j]; simpl in H.
      * injection H as <-. now exists [], l.
      * apply IH in H. destruct H as (pre & post & -> & Hl & Hx).
        exists (a :: pre), post. simpl. rewrite Fa. simpl. auto.
    + apply IH in H. destruct H as (pre & post & -> & Hl & Hx).
      exists (a :: pre), post. simpl. rewrite Fa. auto.
Qed.

Lemma firstn_snoc {A} (a b : list A) (x : A) :
  firstn (S (length a)) (a ++ x :: b) = a ++ [x].
Proof.
  rewrite firstn_app, firstn_all2 by lia.
  replace (S (length a) - length a)%nat with 1%nat by lia.
  reflexivity.
Qed.

Lemma filter_none {A} (g : A -> bool) (l : list A) :
  (forall x, In x l -> g x = false) -> filter g l = [].
Proof.
  induction l as [|a l IH]; intros H; simpl; [reflexivity|].
  rewrite (H a) by now left. apply IH. intros; apply H; now right.
Qed.

Lemma Qsum_partition {A} (h : A -> Q) (g : A -> bool) (l : list A) :
  Qsum (map h l) ==
  Qsum (map h (filter g l)) + Qsum (map h (filter (fun x => negb (g x)) l)).
Proof.
  induction l as [|a l IH]; simpl.
  - unfold Qsum. simpl. ring.
  - rewrite Qsum_cons, IH. destruct (g a); simpl; rewrite Qsum_cons; ring.
Qed.

Lemma df_month_nth (series : list DailyRow) (cms : date) (j : nat)
    (r : MonthRow) :
  nth_error (df_month series cms) j = Some r ->
  nth_error (filter_month series cms) j = Some (mDaily r) /\
  Monthly_Cumulative r ==
  Qsum (firstn (S j) (map dLearningTime (filter_month series cms))).
Proof.
  unfold df_month. intros H. apply nth_error_map_combine in H.
  destruct H as (x & c & Hx & Hc & ->).
  cbn [mDaily Monthly_Cumulative]. split; [exact Hx|].
  apply cumsum_from_nth in Hc. rewrite Hc. ring.
Qed.

Lemma df_month_rows (series : list DailyRow) (cms : date) :
  map mDaily (df_month series cms) = filter_month series cms.
Proof.
  unfold df_month. rewrite map_map.
  transitivity (map fst (combine (filter_month series cms)
                  (cumsum (map dLearningTime (filter_month series cms))))).
  - apply map_ext. now intros [x c].
  - apply map_fst_combine_eq. unfold cumsum.
    now rewrite cumsum_from_length, length_map.
Qed.

(** On a frame sorted by date whose cumulative column is the running
    sum, a row of the month slice carries the minutes logged before the
    month plus its month-scoped running sum. *)
Lemma month_cumulative_offset (series : list DailyRow) (cms : date) :
  StronglySorted date_lt (map dDate series) ->
  (forall i x, nth_error series i = Some x ->
     Cumulative_Time x == Qsum (firstn (S i) (map dLearningTime series))) ->
  forall j r,
    nth_error (df_month series cms) j = Some r ->
    Cumulative_Time (mDaily r) ==
    Qsum (map dLearningTime
            (filter (fun p => date_ltb (dDate p) cms) series))
    + Monthly_Cumulative r.
Proof.
  intros Hsorted Hcum j r H.
  apply df_month_nth in H. destruct H as [Hsel Hm]. rewrite Hm.
  unfold filter_month in *.
  set (f := fun p => date_leb cms (dDate p)
                     && date_ltb (dDate p) (next_month_start cms)) in *.
  destruct (filter_nth_split f series j _ Hsel)
    as (pre & post & E & Hj & Hf).
  destruct (sorted_rows_split series pre post _ Hsorted E) as [Hpre Hpost].
  unfold f in Hf. apply andb_true_iff in Hf. destruct Hf as [Hge Hlt].
  apply date_leb_spec in Hge.
  assert (Hx : nth_error series (length pre) = Some (mDaily r)).
  { rewrite E, nth_error_app2, Nat.sub_diag by lia. reflexivity. }
  rewrite (Hcum _ _ Hx). rewrite E at 1.
  rewrite map_app, map_cons.
  rewrite <- (length_map dLearningTime pre), firstn_snoc, Qsum_app.
  assert (Esel : filter f pre =
                 filter (fun p => negb (date_ltb (dDate p) cms)) pre).
  { apply filter_ext_in. intros p Hp. unfold f, date_leb.
    replace (date_ltb (dDate p) (next_month_start cms)) with true;
      [apply andb_true_r|].
    symmetry. exact (date_ltb_trans _ _ _ (Hpre p Hp) Hlt). }
  assert (Eprior : filter (fun p => date_ltb (dDate p) cms) series =
                   filter (fun p => date_ltb (dDate p) cms) pre).
  { rewrite E, filter_app, (filter_none _ (mDaily r :: post));
      [apply app_nil_r|].
    intros p Hp. apply date_ltb_false. intros Hlt'. apply Hge.
    destruct Hp as [<-|Hp]; [exact Hlt'|].
    exact (date_ltb_trans _ _ _ (Hpost p Hp) Hlt'). }
  rewrite Eprior.
  assert (Eslice : firstn (S j) (map dLearningTime (filter f series)) =
                   map dLearningTime (filter f pre)
                   ++ [dLearningTime (mDaily r)]).
  { rewrite E, filter_app. cbn [filter].
    replace (f (mDaily r)) with true.
    - rewrite map_app, map_cons.
      rewrite <- Hj, <- (length_map dLearningTime (filter f pre)).
      apply firstn_snoc.
    - symmetry. unfold f. apply andb_true_iff. split; [|exact Hlt].
      now apply date_leb_spec. }
  rewrite Eslice, Qsum_app, Esel.
  rewrite (Qsum_partition dLearningTime
             (fun p => date_ltb (dDate p) cms) pre).
  ring.
Qed.

End MonthSlice.

(** C3 (as the code has it): the month view keeps exactly the points
    dated in [month_start, next_month_start), in order, and its
    [Monthly_Cumulative] is the running sum of the minutes of those
    points alone.  At each point [Cumulative_Time] is that running sum
    plus the minutes logged before the month, so the two agree exactly
    when nothing was logged earlier, as in the first month of history. *)
Theorem month_slice_and_cumulative (df : list Obs) (current_month_start : date) :
  let series := analyze_data df in
  let next := next_month_start current_month_start in
  let rows := df_month series current_month_start in
  let prior :=
    Qsum (map dLearningTime
            (filter (fun p => date_ltb (dDate p) current_month_start) series)) in
  map mDaily rows =
    filter (fun p => date_leb current_month_start (dDate p)
                     && date_ltb (dDate p) next) series /\
  (forall p, In p (map mDaily rows) <->
             In p series /\ date_leb current_month_start (dDate p) = true
             /\ date_ltb (dDate p) next = true) /\
  (forall j r, nth_error rows j = Some r ->
     Monthly_Cumulative r ==
       Qsum (firstn (S j) (map (fun x => dLearningTime (mDaily x)) rows)) /\
     Cumulative_Time (mDaily r) == prior + Monthly_Cumulative r /\
     (Monthly_Cumulative r == Cumulative_Time (mDaily r) <-> prior == 0)) /\
  ((forall p, In p series -> date_ltb (dDate p) current_month_start = false) ->
   forall j r, nth_error rows j = Some r ->
     Monthly_Cumulative r == Cumulative_Time (mDaily r)).
Proof.
  intros series next rows prior.
  assert (Hrows : map mDaily rows = filter_month series current_month_start)
    by apply df_month_rows.
  assert (Hoff : forall j r, nth_error rows j = Some r ->
            Cumulative_Time (mDaily r) == prior + Monthly_Cumulative r).
  { apply month_cumulative_offset.
    - apply series_dates_sorted.
    - intros i x. apply cumulative_time_nth. }
  split; [exact Hrows|]. split; [|split].
  - intros p. rewrite Hrows. unfold filter_month.
    rewrite filter_In, andb_true_iff. reflexivity.
  - intros j r H. split; [|split].
    + destruct (df_month_nth _ _ _ _ H) as [_ Hm]. rewrite Hm.
      rewrite <- Hrows, map_map. reflexivity.
    + now apply (Hoff j).
    + rewrite (Hoff j r H). split; intros E; lra.
  - intros Hfirst j r H. rewrite (Hoff j r H).
    unfold prior. rewrite filter_none by exact Hfirst.
    unfold Qsum at 1. simpl. ring.
Qed.

(** C3 as stated fails: with 0 minutes logged on 2025-12-31 and 30 on
    2026-01-01, January 2026 is not the first month of history, yet its
    month-scoped cumulative equals the full-history one. *)
Lemma monthly_cumulative_may_equal_total :
  let series := analyze_data obs_after_idle_day in
  let current_month_start := mkdate 2026 1 1 in
  ~ ((exists p, In p series /\ date_ltb (dDate p) current_month_start = true) ->
     forall r, In r (df_month series current_month_start) ->
               ~ Monthly_Cumulative r == Cumulative_Time (mDaily r)).
Proof.
  intros series current_month_start H.
  apply (H (ex_intro _ (mkDaily (mkdate 2025 12 31) 0 0 (Some 0))
                       (conj (or_introl eq_refl) eq_refl))
           (mkMonthRow (mkDaily (mkdate 2026 1 1) 30 30 (Some (30 # 2))) 30)).
  - left. reflexivity.
  - reflexivity.
Qed.

(** ** Month selection by text and by range *)

Section MonthSelection.

Lemma digit_char_inj (a b : Z) :
  (0 <= a < 10)%Z -> (0 <= b < 10)%Z ->
  digit_char a = digit_char b -> a = b.
Proof.
  intros Ha Hb E. unfold digit_char in E.
  apply (f_equal nat_of_ascii) in E.
  rewrite !nat_ascii_embedding in E by lia. lia.
Qed.

Lemma strftime_Ym_inj (a b : date) :
  (0 <= year a <= 9999)%Z -> (0 <= year b <= 9999)%Z ->
  (0 <= month a <= 99)%Z -> (0 <= month b <= 99)%Z ->
  strftime_Ym a = strftime_Ym b ->
  year a = year b /\ month a = month b.
Proof.
  intros Hya Hyb Hma Hmb E. unfold strftime_Ym in E.
  injection E as E3 E2 E1 E0 F1 F0.
  apply digit_char_inj in E3, E2, E1, E0, F1, F0;
    try (apply Z.mod_pos_bound; lia).
  split; Z.div_mod_to_equations; lia.
Qed.

Lemma month_filter_agree (d cms now : date) :
  valid_date d = true -> valid_date cms = true -> valid_date now = true ->
  day cms = 1%Z -> year now = year cms -> month now = month cms ->
  date_leb cms d && date_ltb d (next_month_start cms) =
  String.eqb (strftime_Ym d) (strftime_Ym now).
Proof.
  intros Hd Hc Hn Hday Hy Hm.
  apply valid_date_fields in Hd, Hc, Hn.
  assert (Hrange : date_leb cms d && date_ltb d (next_month_start cms) = true
                   <-> year d = year cms /\ month d = month cms).
  { rewrite andb_true_iff, date_leb_spec, !date_ltb_spec.
    unfold next_month_start.
    destruct (month cms =? 12)%Z eqn:E; simpl;
      rewrite ?Z.eqb_eq, ?Z.eqb_neq in E; lia. }
  assert (Htext : String.eqb (strftime_Ym d) (strftime_Ym now) = true
                  <-> year d = year cms /\ month d = month cms).
  { rewrite String.eqb_eq, <- Hy, <- Hm. split.
    - apply strftime_Ym_inj; lia.
    - intros [Ey Em]. unfold strftime_Ym. now rewrite Ey, Em. }
  destruct (date_leb cms d && date_ltb d (next_month_start cms));
    destruct (String.eqb (strftime_Ym d) (strftime_Ym now));
    try reflexivity; intuition congruence.
Qed.

Lemma combine_forget_middle {A B C} (a : list A) (b : list B) (c : list C) :
  length b = length a -> length c = length a ->
  map (fun p => (fst p, snd (snd p))) (combine a (combine b c)) = combine a c.
Proof.
  revert b c. induction a as [|x a IH]; intros [|y b] [|z c] Hb Hc;
    simpl in *; try discriminate; [reflexivity|].
  f_equal. apply IH; lia.
Qed.

Lemma filter_map_swap {A B} (g : A -> B) (f : B -> bool) (l : list A) :
  filter f (map g l) = map g (filter (fun x => f (g x)) l).
Proof.
  induction l as [|a l IH]; simpl; [reflexivity|].
  destruct (f (g a)); simpl; now rewrite IH.
Qed.

Lemma combine_map_l {A A' B} (g : A -> A') (a : list A) (b : list B) :
  combine (map g a) b = map (fun p => (g (fst p), snd p)) (combine a b).
Proof.
  revert b. induction a as [|x a IH]; intros [|y b]; simpl;
    try reflexivity.
  now rewrite IH.
Qed.

End MonthSelection.

(** C10: for valid observation dates and a selected month that is the
    current month of [generate_chart.py], the month rows of [app.py]
    and the rows of [process_data] carry the same dates, minutes, moving
    averages and month-scoped cumulative sums, in the same order. *)
Theorem month_rows_agree_with_process_data
    (df : list Obs) (current_month_start now : date) :
  (forall o, In o df -> valid_date (Date o) = true) ->
  valid_date current_month_start = true ->
  day current_month_start = 1%Z ->
  valid_date now = true ->
  year now = year current_month_start ->
  month now = month current_month_start ->
  map (fun r => (dDate (mDaily r), dLearningTime (mDaily r),
                 Moving_Avg_60d (mDaily r), Monthly_Cumulative r))
      (df_month (analyze_data df) current_month_start) =
  map (fun c => (cdate c, cminutes c, moving_avg_60d c, monthly_cumulative c))
      (process_data df now).
Proof.
  intros Hobs Hcms Hday Hnow Hy Hm.
  set (G := fun r : DailyRow => (dDate r, dLearningTime r, Moving_Avg_60d r)).
  set (daily := resample_D_sum (sort_values df)).
  set (mavg := rolling_mean 60 1 (map snd daily)).
  assert (Hfull : map G (analyze_data df) = combine daily mavg).
  { rewrite analyze_data_unfold. fold daily mavg. rewrite map_map.
    rewrite <- (combine_forget_middle daily (cumsum (map snd daily)) mavg).
    - apply map_ext. now intros [[d m] [c a]].
    - unfold cumsum. now rewrite cumsum_from_length, length_map.
    - unfold mavg, rolling_mean. now rewrite rolling_mean_length, length_map. }
  assert (Hcur :
    filter (fun r : date * Q * option Q =>
              String.eqb (strftime_Ym (fst (fst r))) (strftime_Ym now))
           (combine daily mavg) =
    map G (filter_month (analyze_data df) current_month_start)).
  { rewrite <- Hfull, filter_map_swap. f_equal. unfold filter_month.
    apply filter_ext_in. intros r Hr. unfold G. cbn [fst].
    symmetry. apply month_filter_agree; try assumption.
    now apply (series_dates_valid df). }
  assert (Hproc : process_data df now =
    map (fun '((d, m, a), c) => mkChartRow d m a c)
        (combine (map G (filter_month (analyze_data df) current_month_start))
                 (cumsum (map dLearningTime
                            (filter_month (analyze_data df)
                                          current_month_start))))).
  { unfold process_data. fold daily mavg.
    destruct df as [|o df'] eqn:Edf.
    - reflexivity.
    - rewrite <- Edf in *. rewrite Hcur. do 3 f_equal.
      rewrite map_map. apply map_ext. now intros r. }
  rewrite Hproc. unfold df_month. rewrite combine_map_l, !map_map.
  apply map_ext. now intros [r c].
Qed.

(** ** Record Normalizer *)

Section Normalizer.

Lemma lookup_encoded (k : string) (props : list (string * notion_prop)) :
  lookup k (map (fun kp => (fst kp, encode_prop (snd kp))) props) =
  option_map encode_prop (lookup k props).
Proof.
  induction props as [|[k' p] props IH]; simpl; [reflexivity|].
  destruct (String.eqb k' k); [reflexivity|exact IH].
Qed.

Lemma lookup_In {A} (k : string) (kv : list (string * A)) (v : A) :
  lookup k kv = Some v -> In (k, v) kv.
Proof.
  induction kv as [|[k' v'] kv IH]; simpl; [discriminate|].
  destruct (String.eqb k' k) eqn:E.
  - apply String.eqb_eq in E. intros H. injection H as <-. subst. now left.
  - intros H. right. now apply IH.
Qed.

Lemma subscript_properties (props : list (string * notion_prop)) :
  subscript (encode_page props) "properties" =
  Ok (JObj (map (fun kp => (fst kp, encode_prop (snd kp))) props)).
Proof. reflexivity. Qed.

Lemma dict_get_encoded (k : string) (props : list (string * notion_prop)) :
  dict_get (JObj (map (fun kp => (fst kp, encode_prop (snd kp))) props))
           k (JObj []) =
  Ok (match lookup k props with
      | Some p => encode_prop p
      | None => JObj []
      end).
Proof.
  unfold dict_get. rewrite lookup_encoded.
  now destruct (lookup k props).
Qed.

Lemma other_kind_tags (ty : string) (payload : json) :
  other_kind (NOther ty payload) = true ->
  String.eqb ty "date" = false /\ String.eqb ty "number" = false /\
  String.eqb ty "title" = false /\ String.eqb ty "id" = false /\
  String.eqb ty "type" = false.
Proof.
  unfold other_kind. rewrite !andb_true_iff, !negb_true_iff. tauto.
Qed.



End Normalizer.

Section NormalizerPages.

Variable props : list (string * notion_prop).
Hypothesis props_kinds : forall k p, In (k, p) props -> other_kind p = true.

Lemma raw_row_of_encoded :
  raw_row_of_page (encode_page props) =
  match lookup PROPERTY_DATE props with
  | Some (NDate (Some s)) =>
      Ok (Some (mkRaw (JStr s)
                  (JNum match lookup PROPERTY_TIME props with
                        | Some (NNumber (Some n)) =>
                            if Qeq_bool n 0 then 0 else n
                        | _ => 0
                        end)))
  | _ => Ok None
  end.
Proof.
  unfold raw_row_of_page. rewrite subscript_properties. cbn [bind].
  rewrite dict_get_encoded. cbn [bind].
  destruct (lookup PROPERTY_DATE props)
    as [[[s|]|[n|]|texts|ty payload]|] eqn:Ed; try reflexivity.
  - cbn -[dict_get PROPERTY_TIME]. rewrite dict_get_encoded. cbn [bind].
    destruct (lookup PROPERTY_TIME props)
      as [[[s'|]|[n|]|texts|ty payload]|] eqn:Et; try reflexivity.
    + cbn. unfold py_or. cbn. now destruct (Qeq_bool n 0).
    + destruct (other_kind_tags ty payload
                  (props_kinds _ _ (lookup_In _ _ _ Et)))
        as (_ & En & _).
      cbn. rewrite En. reflexivity.
  - destruct (other_kind_tags ty payload
                (props_kinds _ _ (lookup_In _ _ _ Ed)))
      as (Edate & _).
    cbn. rewrite Edate. reflexivity.
Qed.


End NormalizerPages.

Section NormalizerRules.

Lemma strptime_Yb_pattern (s : string) (d : date) :
  strptime_Yb s = Some d ->
  exists y3 y2 y1 y0 a b c,
    s = String y3 (String y2 (String y1 (String y0
          (String "-"%char (String a (String b (String c EmptyString))))))) /\
    is_digit y3 = true /\ is_digit y2 = true /\
    is_digit y1 = true /\ is_digit y0 = true /\
    month_of_abbr a b c = Some (month d) /\
    year d = (1000 * digit_val y3 + 100 * digit_val y2
              + 10 * digit_val y1 + digit_val y0)%Z /\
    (1 <= year d)%Z /\ day d = 1%Z.
Proof.
  unfold strptime_Yb.
  destruct s as [|y3 [|y2 [|y1 [|y0 [|h [|a [|b [|c [|? ?]]]]]]]]];
    try discriminate;
    destruct h as [[] [] [] [] [] [] [] []]; try discriminate.
  destruct (is_digit y3) eqn:D3; [|discriminate].
  destruct (is_digit y2) eqn:D2; [|discriminate].
  destruct (is_digit y1) eqn:D1; [|discriminate].
  destruct (is_digit y0) eqn:D0; [|discriminate].
  cbn [andb].
  destruct (month_of_abbr a b c) as [m|] eqn:Em; [|discriminate].
  destruct (1 <=? _)%Z eqn:Ey; [|discriminate].
  intros H. injection H as <-. apply Z.leb_le in Ey.
  exists y3, y2, y1, y0, a, b, c. cbn [year month day].
  repeat split; auto.
Qed.

(** On records shaped by the data source the activity loop never
    raises. *)
Lemma activity_batch_total (pages : list (list (string * notion_prop))) :
  (forall props k p, In props pages -> In (k, p) props -> other_kind p = true) ->
  exists rows, collect_rows (map encode_page pages) = Ok rows.
Proof.
  induction pages as [|props pages IH]; intros Hk; simpl.
  - now exists [].
  - destruct IH as (rows & Hrows).
    { intros q k p Hq. apply Hk. now right. }
    rewrite raw_row_of_encoded, Hrows
      by (intros k p; apply Hk; now left).
    destruct (lookup PROPERTY_DATE props) as [[[s|]|?|?|? ?]|]; cbn;
      eexists; reflexivity.
Qed.

End NormalizerRules.



(** C5 (the code departs from it): a goal record whose month title
    property is of another kind than title raises [KeyError] and ends
    the whole batch, the well-formed record before it included. *)
Lemma goal_batch_aborts_on_untitled_month :
  process_goal_data [goal_page_example; bad_goal_page]
  = Raise (KeyError "title").
Proof. reflexivity. Qed.

(** ** Worked instances *)

Lemma target_curve_example :
  valid_date (mkdate 2026 1 1) = true /\
  let targets :=
    target_points (month_view [] goal_df_example (mkdate 2026 1 1)) in
  length targets = 31%nat /\
  exists t, nth_error targets 30 = Some t /\ Target_Cumulative t == 600.
Proof.
  split; [reflexivity|].
  destruct (target_curve_rule [] goal_df_example (mkdate 2026 1 1) eq_refl)
    as (_ & Hpos & _).
  destruct (Hpos eq_refl) as (Hlen & _ & _ & Hlast).
  split; [exact Hlen | exact Hlast].
Defined.

Lemma month_slice_example :
  let r := mkMonthRow (mkDaily (mkdate 2026 1 1) 30 30 (Some (30 # 2))) 30 in
  nth_error (df_month (analyze_data obs_after_idle_day) (mkdate 2026 1 1)) 0
    = Some r /\
  Cumulative_Time (mDaily r) == 0 + Monthly_Cumulative r.
Proof.
  intros r. split; [reflexivity|].
  destruct (month_slice_and_cumulative obs_after_idle_day (mkdate 2026 1 1))
    as (_ & _ & H & _).
  exact (proj1 (proj2 (H 0%nat r eq_refl))).
Defined.



Lemma month_rows_agree_example :
  (forall o, In o obs_scenario -> valid_date (Date o) = true) /\
  map (fun r => (dDate (mDaily r), dLearningTime (mDaily r),
                 Moving_Avg_60d (mDaily r), Monthly_Cumulative r))
      (df_month (analyze_data obs_scenario) (mkdate 2026 1 1)) =
  map (fun c => (cdate c, cminutes c, moving_avg_60d c, monthly_cumulative c))
      (process_data obs_scenario (mkdate 2026 1 17)).
Proof.
  assert (Hv : forall o, In o obs_scenario -> valid_date (Date o) = true).
  { intros o [<-|[<-|[<-|[]]]]; reflexivity. }
  split; [exact Hv|].
  exact (month_rows_agree_with_process_data obs_scenario
           (mkdate 2026 1 1) (mkdate 2026 1 17)
           Hv eq_refl eq_refl eq_refl eq_refl eq_refl).
Defined.

(** * Further properties of the program *)

(** ** Month navigation *)

Section Navigation.

Lemma add_days_within (n : nat) (d : date) :
  (day d + Z.of_nat n <= days_in_month (year d) (month d))%Z ->
  add_days d n = mkdate (year d) (month d) (day d + Z.of_nat n).
Proof.
  induction n as [|n IH]; intros H.
  - unfold add_days. simpl. destruct d; simpl. f_equal. lia.
  - change (add_days d (S n)) with (next_day (add_days d n)).
    rewrite IH by lia.
    unfold next_day. cbn [year month day].
    replace (day d + Z.of_nat n <? days_in_month (year d) (month d))%Z
      with true by (symmetry; apply Z.ltb_lt; lia).
    f_equal. lia.
Qed.

Lemma add_days_add (d : date) (a b : nat) :
  add_days d (a + b) = add_days (add_days d b) a.
Proof.
  unfold add_days. apply Nat.iter_add.
Qed.

Lemma next_month_start_fields (cms : date) :
  (1 <= month cms <= 12)%Z ->
  (1 <= month (next_month_start cms) <= 12)%Z /\
  day (next_month_start cms) = day cms /\
  (year cms <= year (next_month_start cms) <= year cms + 1)%Z.
Proof.
  intros Hm. unfold next_month_start.
  destruct (month cms =? 12)%Z eqn:E; cbn [year month day];
    rewrite ?Z.eqb_eq, ?Z.eqb_neq in E; lia.
Qed.

(** Thirty-two days after the first of a month lie in the next month. *)
Lemma add_32_days (cms : date) :
  valid_date cms = true -> day cms = 1%Z ->
  exists k, (2 <= k <= 5)%Z /\
    add_days cms 32 =
    mkdate (year (next_month_start cms)) (month (next_month_start cms)) k.
Proof.
  intros Hv Hday. apply valid_date_fields in Hv.
  destruct Hv as (Hy & Hm & _).
  pose proof (days_in_month_bounds (year cms) (month cms) Hm) as Hdim.
  set (dim := days_in_month (year cms) (month cms)) in *.
  replace 32%nat with (Z.to_nat (32 - dim) + S (Z.to_nat (dim - 1)))%nat
    by lia.
  rewrite add_days_add.
  assert (E1 : add_days cms (S (Z.to_nat (dim - 1)))
               = mkdate (year (next_month_start cms))
                        (month (next_month_start cms)) 1).
  { change (add_days cms (S (Z.to_nat (dim - 1))))
      with (next_day (add_days cms (Z.to_nat (dim - 1)))).
    rewrite add_days_within by (fold dim; lia).
    unfold next_day. cbn [year month day]. fold dim.
    replace (day cms + Z.of_nat (Z.to_nat (dim - 1)) <? dim)%Z with false
      by (symmetry; apply Z.ltb_ge; lia).
    unfold next_month_start.
    destruct (month cms <? 12)%Z eqn:E; destruct (month cms =? 12)%Z eqn:E';
      rewrite ?Z.ltb_lt, ?Z.ltb_ge, ?Z.eqb_eq, ?Z.eqb_neq in *;
      try lia; reflexivity. }
  rewrite E1.
  destruct (next_month_start_fields cms Hm) as (Hm' & _ & _).
  pose proof (days_in_month_bounds (year (next_month_start cms))
                (month (next_month_start cms)) Hm').
  rewrite add_days_within by (cbn [year month day]; lia).
  cbn [year month day]. exists (1 + Z.of_nat (Z.to_nat (32 - dim)))%Z.
  split; [lia|reflexivity].
Qed.

Lemma nav_next_eq (cms : date) :
  valid_date cms = true -> day cms = 1%Z ->
  nav_next cms =
  if (year (next_month_start cms) <=? 9999)%Z
  then Some (next_month_start cms) else None.
Proof.
  intros Hv Hday. destruct (add_32_days cms Hv Hday) as (k & Hk & E).
  apply valid_date_fields in Hv. destruct Hv as (Hy & Hm & _).
  destruct (next_month_start_fields cms Hm) as (Hm' & Hd' & _).
  unfold nav_next, timedelta_add. rewrite E. cbn [year].
  destruct (year (next_month_start cms) <=? 9999)%Z; [|reflexivity].
  unfold replace_day. cbn [year month day].
  pose proof (days_in_month_bounds (year (next_month_start cms))
                (month (next_month_start cms)) Hm').
  replace ((1 <=? 1)%Z &&
           (1 <=? days_in_month (year (next_month_start cms))
                                 (month (next_month_start cms)))%Z)
    with true by (symmetry; apply andb_true_iff; split; apply Z.leb_le; lia).
  f_equal. rewrite Hday in Hd'. clear E.
  destruct (next_month_start cms) as [y m d]. cbn [day] in Hd'. now subst d.
Qed.

Lemma nav_prev_eq (cms : date) :
  valid_date cms = true -> day cms = 1%Z ->
  nav_prev cms =
  if (1 <? month cms)%Z then Some (mkdate (year cms) (month cms - 1) 1)
  else if (1 <? year cms)%Z then Some (mkdate (year cms - 1) 12 1)
       else None.
Proof.
  intros Hv Hday. apply valid_date_fields in Hv.
  destruct Hv as (Hy & Hm & _).
  unfold nav_prev, timedelta_sub_day, prev_day. rewrite Hday.
  change (1 <? 1)%Z with false. cbv iota.
  destruct (1 <? month cms)%Z eqn:E; cbn [year month day].
  - apply Z.ltb_lt in E.
    replace (1 <=? year cms)%Z with true by (symmetry; apply Z.leb_le; lia).
    unfold replace_day. cbn [year month day].
    pose proof (days_in_month_bounds (year cms) (month cms - 1) ltac:(lia)).
    replace ((1 <=? 1)%Z &&
             (1 <=? days_in_month (year cms) (month cms - 1))%Z)
      with true
      by (symmetry; apply andb_true_iff; split; apply Z.leb_le; lia).
    reflexivity.
  - destruct (1 <? year cms)%Z eqn:Ey.
    + apply Z.ltb_lt in Ey.
      replace (1 <=? year cms - 1)%Z with true
        by (symmetry; apply Z.leb_le; lia).
      reflexivity.
    + apply Z.ltb_ge in Ey.
      replace (1 <=? year cms - 1)%Z with false
        by (symmetry; apply Z.leb_gt; lia).
      reflexivity.
Qed.

Lemma first_of_month_valid (y m : Z) :
  (1 <= y <= 9999)%Z -> (1 <= m <= 12)%Z ->
  valid_date (mkdate y m 1) = true.
Proof.
  intros Hy Hm. pose proof (days_in_month_bounds y m Hm).
  unfold valid_date. cbn [year month day].
  rewrite !andb_true_iff, !Z.leb_le. lia.
Qed.

(** Stepping back and forth by calendar days is ordinal arithmetic, as
    [date.__add__] and [date.__sub__] compute it. *)
Lemma next_prev_day (d : date) :
  wf_date d -> (1 < year d \/ 1 < month d \/ 1 < day d)%Z ->
  wf_date (prev_day d) /\ next_day (prev_day d) = d /\
  toordinal (prev_day d) = (toordinal d - 1)%Z.
Proof.
  intros (Hy & Hm & Hd) Hfirst.
  assert (Hw : wf_date (prev_day d)).
  { unfold wf_date, prev_day.
    destruct (1 <? day d)%Z eqn:E1; cbn [year month day].
    - apply Z.ltb_lt in E1. lia.
    - destruct (1 <? month d)%Z eqn:E2; cbn [year month day].
      + apply Z.ltb_lt in E2.
        pose proof (days_in_month_bounds (year d) (month d - 1) ltac:(lia)).
        lia.
      + apply Z.ltb_ge in E1, E2.
        pose proof (days_in_month_bounds (year d - 1) 12 ltac:(lia)).
        change (days_in_month (year d - 1) 12) with 31%Z in *. lia. }
  assert (Hn : next_day (prev_day d) = d).
  { unfold prev_day, next_day.
    destruct (1 <? day d)%Z eqn:E1; cbn [year month day].
    - apply Z.ltb_lt in E1.
      replace (day d - 1 <? days_in_month (year d) (month d))%Z with true
        by (symmetry; apply Z.ltb_lt; lia).
      destruct d as [y m k]. cbn [year month day]. f_equal. lia.
    - apply Z.ltb_ge in E1.
      destruct (1 <? month d)%Z eqn:E2; cbn [year month day].
      + apply Z.ltb_lt in E2. rewrite Z.ltb_irrefl.
        replace (month d - 1 <? 12)%Z with true
          by (symmetry; apply Z.ltb_lt; lia).
        destruct d as [y m k]. cbn [year month day] in *. f_equal; lia.
      + apply Z.ltb_ge in E2.
        change (days_in_month (year d - 1) 12) with 31%Z.
        rewrite Z.ltb_irrefl. change (12 <? 12)%Z with false. cbv iota.
        destruct d as [y m k]. cbn [year month day] in *. f_equal; lia. }
  split; [exact Hw|]. split; [exact Hn|].
  pose proof (toordinal_next_day (prev_day d) Hw) as Ho.
  rewrite Hn in Ho. lia.
Qed.

Lemma toordinal_add_days (n : nat) (d : date) :
  wf_date d ->
  wf_date (add_days d n) /\
  toordinal (add_days d n) = (toordinal d + Z.of_nat n)%Z.
Proof.
  intros Hd. induction n as [|n [Hw Ho]].
  - split; [exact Hd|]. unfold add_days. simpl. lia.
  - change (add_days d (S n)) with (next_day (add_days d n)).
    split; [now apply next_day_wf|].
    rewrite toordinal_next_day by exact Hw. lia.
Qed.

End Navigation.

(** X1: from the first day of a valid month the button ">" leads to the
    first day of the next calendar month, December rolling into January
    of the next year: the date the month filter uses as its upper bound.
    Only from December 9999 is there no next month. *)
Theorem nav_next_is_next_month_start (current_month : date) :
  valid_date current_month = true -> day current_month = 1%Z ->
  (year current_month = 9999%Z /\ month current_month = 12%Z ->
   nav_next current_month = None) /\
  (~ (year current_month = 9999%Z /\ month current_month = 12%Z) ->
   nav_next current_month = Some (next_month_start current_month) /\
   valid_date (next_month_start current_month) = true /\
   day (next_month_start current_month) = 1%Z /\
   date_ltb current_month (next_month_start current_month) = true).
Proof.
  intros Hv Hday. rewrite (nav_next_eq _ Hv Hday).
  pose proof (valid_date_fields _ Hv) as (Hy & Hm & _).
  destruct (next_month_start_fields current_month Hm) as (Hm' & Hd' & Hy').
  unfold next_month_start in *.
  destruct (month current_month =? 12)%Z eqn:E;
    rewrite ?Z.eqb_eq, ?Z.eqb_neq in E; cbn [year month day] in *.
  - split.
    + intros [Ey _]. replace (year current_month + 1 <=? 9999)%Z with false
        by (symmetry; apply Z.leb_gt; lia). reflexivity.
    + intros Hn.
      replace (year current_month + 1 <=? 9999)%Z with true
        by (symmetry; apply Z.leb_le; lia).
      split; [reflexivity|]. split; [|split].
      * rewrite Hday. apply first_of_month_valid; lia.
      * exact Hday.
      * apply date_ltb_spec. cbn [year month day]. lia.
  - split; [lia|]. intros _.
    replace (year current_month <=? 9999)%Z with true
      by (symmetry; apply Z.leb_le; lia).
    split; [reflexivity|]. split; [|split].
    + rewrite Hday. apply first_of_month_valid; lia.
    + exact Hday.
    + apply date_ltb_spec. cbn [year month day]. lia.
Qed.

Lemma nav_next_example :
  valid_date (mkdate 2026 12 1) = true /\
  nav_next (mkdate 2026 12 1) = Some (mkdate 2027 1 1).
Proof.
  split; [reflexivity|].
  refine (proj1 (proj2 (nav_next_is_next_month_start (mkdate 2026 12 1)
                          eq_refl eq_refl) _)).
  intros [H _]. discriminate H.
Defined.

(** X2: the two buttons undo each other: after ">" the button "<" comes
    back to the same month, and after "<" the button ">" does. *)
Theorem nav_round_trip (current_month : date) :
  valid_date current_month = true -> day current_month = 1%Z ->
  (forall n, nav_next current_month = Some n -> nav_prev n = Some current_month) /\
  (forall p, nav_prev current_month = Some p -> nav_next p = Some current_month).
Proof.
  intros Hv Hday.
  pose proof (valid_date_fields _ Hv) as (Hy & Hm & _).
  split.
  - intros n Hn. rewrite (nav_next_eq _ Hv Hday) in Hn.
    destruct (year (next_month_start current_month) <=? 9999)%Z eqn:Ey;
      [|discriminate].
    injection Hn as <-. apply Z.leb_le in Ey.
    destruct (next_month_start_fields current_month Hm) as (Hm' & Hd' & Hy').
    assert (Hvn : valid_date (next_month_start current_month) = true).
    { destruct (next_month_start current_month) as [y m d] eqn:En.
      cbn in *. rewrite Hd', Hday. apply first_of_month_valid; lia. }
    rewrite (nav_prev_eq _ Hvn) by congruence.
    unfold next_month_start.
    destruct (month current_month =? 12)%Z eqn:E;
      rewrite ?Z.eqb_eq, ?Z.eqb_neq in E; cbn [year month day].
    + cbn [Z.ltb Z.compare].
      replace (1 <? year current_month + 1)%Z with true
        by (symmetry; apply Z.ltb_lt; lia).
      destruct current_month as [y m d]. cbn in *. subst. f_equal. f_equal. lia.
    + replace (1 <? month current_month + 1)%Z with true
        by (symmetry; apply Z.ltb_lt; lia).
      destruct current_month as [y m d]. cbn in *. subst. f_equal. f_equal. lia.
  - intros p Hp. rewrite (nav_prev_eq _ Hv Hday) in Hp.
    destruct (1 <? month current_month)%Z eqn:E.
    + apply Z.ltb_lt in E. injection Hp as <-.
      rewrite nav_next_eq by (try apply first_of_month_valid; try reflexivity; lia).
      unfold next_month_start. cbn [year month day].
      replace (month current_month - 1 =? 12)%Z with false
        by (symmetry; apply Z.eqb_neq; lia).
      cbn [year].
      replace (year current_month <=? 9999)%Z with true
        by (symmetry; apply Z.leb_le; lia).
      destruct current_month as [y m d]. cbn in *. subst. f_equal. f_equal. lia.
    + apply Z.ltb_ge in E. destruct (1 <? year current_month)%Z eqn:Ey;
        [|discriminate].
      apply Z.ltb_lt in Ey. injection Hp as <-.
      rewrite nav_next_eq by (try apply first_of_month_valid; try reflexivity; lia).
      unfold next_month_start. cbn [year month day Z.eqb Pos.eqb].
      replace (year current_month - 1 + 1 <=? 9999)%Z with true
        by (symmetry; apply Z.leb_le; lia).
      destruct current_month as [y m d]. cbn in *. subst. f_equal. f_equal; lia.
Qed.

Lemma nav_round_trip_example :
  valid_date (mkdate 2026 1 1) = true /\
  nav_next (mkdate 2025 12 1) = Some (mkdate 2026 1 1).
Proof.
  split; [reflexivity|].
  exact (proj2 (nav_round_trip (mkdate 2026 1 1) eq_refl eq_refl)
           (mkdate 2025 12 1) eq_refl).
Defined.

(** ** Ordinals and chronological order *)

Section Ordinals.

Lemma days_before_month_le (y m : Z) (k : nat) :
  (1 <= m)%Z -> (m + Z.of_nat k <= 13)%Z ->
  (days_before_month y m <= days_before_month y (m + Z.of_nat k))%Z.
Proof.
  intros Hm. induction k as [|k IH]; intros Hk.
  - replace (m + Z.of_nat 0)%Z with m by lia. lia.
  - replace (m + Z.of_nat (S k))%Z with (m + Z.of_nat k + 1)%Z by lia.
    rewrite days_before_month_succ by lia.
    pose proof (days_in_month_bounds y (m + Z.of_nat k) ltac:(lia)).
    specialize (IH ltac:(lia)). lia.
Qed.

Lemma toordinal_lt (a b : date) :
  wf_date a -> wf_date b -> date_ltb a b = true ->
  (toordinal a < toordinal b)%Z.
Proof.
  intros Ha Hb H. apply date_ltb_spec in H.
  destruct H as [Hy|[Ey [Hm|[Em Hd]]]].
  - pose proof (toordinal_bounds a Ha). pose proof (toordinal_bounds b Hb).
    pose proof (days_before_year_mono (year a + 1) (year b) ltac:(lia)). lia.
  - destruct Ha as (_ & Hma & Hda). destruct Hb as (_ & Hmb & Hdb).
    unfold toordinal. rewrite Ey.
    pose proof (days_before_month_succ (year b) (month a) ltac:(lia)) as Hs.
    pose proof (days_before_month_le (year b) (month a + 1)
                  (Z.to_nat (month b - (month a + 1))) ltac:(lia) ltac:(lia))
      as Hle.
    replace (month a + 1 + Z.of_nat (Z.to_nat (month b - (month a + 1))))%Z
      with (month b) in Hle by lia.
    rewrite Ey in Hda. lia.
  - unfold toordinal. rewrite Ey, Em. lia.
Qed.

Lemma date_trichotomy (a b : date) :
  date_ltb a b = false -> date_ltb b a = false -> a = b.
Proof.
  rewrite !date_ltb_false, !date_ltb_spec. intros H1 H2.
  destruct a as [ya ma da], b as [yb mb db]. cbn [year month day] in *.
  f_equal; lia.
Qed.

Lemma toordinal_le (a b : date) :
  wf_date a -> wf_date b -> date_ltb b a = false ->
  (toordinal a <= toordinal b)%Z.
Proof.
  intros Ha Hb H. destruct (date_ltb a b) eqn:E.
  - apply toordinal_lt in E; [lia|assumption..].
  - rewrite (date_trichotomy a b E H). lia.
Qed.

Lemma toordinal_inj (a b : date) :
  wf_date a -> wf_date b -> toordinal a = toordinal b -> a = b.
Proof.
  intros Ha Hb H. apply date_trichotomy.
  - destruct (date_ltb a b) eqn:E; [|reflexivity].
    apply toordinal_lt in E; [lia|assumption..].
  - destruct (date_ltb b a) eqn:E; [|reflexivity].
    apply toordinal_lt in E; [lia|assumption..].
Qed.

Lemma date_range_succ (n : nat) :
  forall s i d d',
    nth_error (date_range s n) i = Some d ->
    nth_error (date_range s n) (S i) = Some d' ->
    d' = next_day d.
Proof.
  induction n as [|n IH]; intros s i d d' H H'.
  - destruct i; discriminate.
  - destruct i as [|i]; simpl in H, H'.
    + injection H as <-. destruct n; simpl in H'; [discriminate|].
      now injection H' as <-.
    + eapply IH; eassumption.
Qed.

Lemma date_range_covers (first last d : date) :
  wf_date first -> wf_date d ->
  date_ltb d first = false -> date_ltb last d = false -> wf_date last ->
  In d (date_range first (periods_between first last)).
Proof.
  intros Hf Hd Hfd Hdl Hl.
  pose proof (toordinal_le first d Hf Hd Hfd).
  pose proof (toordinal_le d last Hd Hl Hdl).
  set (k := Z.to_nat (toordinal d - toordinal first)).
  assert (Hk : (k < length (date_range first (periods_between first last)))%nat).
  { rewrite date_range_length. unfold periods_between, k. lia. }
  apply nth_error_Some in Hk.
  destruct (nth_error (date_range first (periods_between first last)) k)
    as [d'|] eqn:E; [|contradiction].
  pose proof (date_range_nth _ _ _ _ Hf E) as (Hw & Ho & _).
  assert (d' = d) by (apply toordinal_inj; [assumption..|unfold k in Ho; lia]).
  subst d'. eapply nth_error_In. exact E.
Qed.

Lemma last_nth_error {A} (l : list A) (d : A) :
  l <> [] -> nth_error l (length l - 1) = Some (last l d).
Proof.
  induction l as [|a l IH]; intros H; [contradiction|].
  destruct l as [|b l]; [reflexivity|].
  replace (length (a :: b :: l) - 1)%nat with (S (length (b :: l) - 1))
    by (simpl; lia).
  cbn [nth_error]. rewrite IH by discriminate. reflexivity.
Qed.

Lemma date_range_last (first last : date) :
  wf_date first -> wf_date last -> date_ltb last first = false ->
  List.last (date_range first (periods_between first last)) first = last.
Proof.
  intros Hf Hl Hle.
  pose proof (toordinal_le first last Hf Hl Hle) as Ho.
  set (n := periods_between first last).
  assert (Hn : (1 <= n)%nat) by (unfold n, periods_between; lia).
  assert (Hne : date_range first n <> []).
  { destruct n; [lia|discriminate]. }
  pose proof (last_nth_error (date_range first n) first Hne) as E.
  rewrite date_range_length in E.
  pose proof (date_range_nth _ _ _ _ Hf E) as (Hw & Hord & _).
  apply toordinal_inj; [assumption..|].
  rewrite Hord. unfold n, periods_between in *. lia.
Qed.

Lemma sorted_lt_NoDup (l : list date) :
  StronglySorted date_lt l -> NoDup l.
Proof.
  induction 1 as [|a l Hs IH Hall]; constructor; [|exact IH].
  intros Hin. rewrite Forall_forall in Hall. specialize (Hall a Hin).
  unfold date_lt in Hall. apply date_ltb_spec in Hall. lia.
Qed.

End Ordinals.

(** ** The sorted frame *)

Section SortedFrame.

Lemma insert_sorted (r : Obs) (l : list Obs) :
  StronglySorted obs_le l -> StronglySorted obs_le (insert_by_date r l).
Proof.
  induction 1 as [|h t Hs IH Hall]; simpl.
  - constructor; constructor.
  - destruct (date_ltb (Date r) (Date h)) eqn:E.
    + constructor; [now constructor|].
      constructor.
      * unfold obs_le. apply date_ltb_false. rewrite date_ltb_spec.
        apply date_ltb_spec in E. lia.
      * rewrite Forall_forall in *. intros x Hx. specialize (Hall x Hx).
        unfold obs_le in *. apply date_ltb_false. rewrite date_ltb_spec.
        apply date_ltb_spec in E.
        rewrite date_ltb_false, date_ltb_spec in Hall. lia.
    + constructor; [exact IH|].
      rewrite Forall_forall in *. intros x Hx.
      apply insert_In in Hx. destruct Hx as [->|Hx]; [exact E|now apply Hall].
Qed.

Lemma sort_values_sorted (df : list Obs) :
  StronglySorted obs_le (sort_values df).
Proof.
  induction df as [|r df IH]; simpl; [constructor|now apply insert_sorted].
Qed.

Lemma obs_le_refl (a : Obs) : obs_le a a.
Proof.
  unfold obs_le. apply date_ltb_false. rewrite date_ltb_spec. lia.
Qed.

Lemma sorted_head_least (r0 : Obs) (t : list Obs) :
  StronglySorted obs_le (r0 :: t) ->
  forall o, In o (r0 :: t) -> obs_le r0 o.
Proof.
  intros Hs o [<-|Ho]; [apply obs_le_refl|].
  apply StronglySorted_inv in Hs. destruct Hs as [_ Hall].
  rewrite Forall_forall in Hall. now apply Hall.
Qed.

Lemma sorted_last_greatest (l : list Obs) (d : Obs) :
  StronglySorted obs_le l ->
  forall o, In o l -> obs_le o (last l d).
Proof.
  induction 1 as [|h t Hs IH Hall]; intros o Ho; [contradiction|].
  destruct t as [|b t].
  - destruct Ho as [<-|[]]. apply obs_le_refl.
  - change (last (h :: b :: t) d) with (last (b :: t) d).
    destruct Ho as [<-|Ho]; [|now apply IH].
    rewrite Forall_forall in Hall. apply Hall. apply last_In. discriminate.
Qed.

(** The daily index of a non-empty frame: what the first and the last
    row of the sorted frame are, and the range between them. *)
Lemma series_index (df : list Obs) :
  df <> [] ->
  exists first last,
    In first (map Date df) /\ In last (map Date df) /\
    (forall o, In o df ->
       date_ltb (Date o) first = false /\ date_ltb last (Date o) = false) /\
    map dDate (analyze_data df) =
      date_range first (periods_between first last).
Proof.
  intros Hne.
  destruct (sort_values df) as [|r0 t] eqn:E.
  { destruct df as [|o df]; [contradiction|].
    assert (In o (sort_values (o :: df))) by (apply sort_In; now left).
    rewrite E in H. contradiction. }
  pose proof (sort_values_sorted df) as Hs. rewrite E in Hs.
  exists (Date r0), (Date (last (r0 :: t) r0)).
  split; [|split; [|split]].
  - apply in_map, sort_In. rewrite E. now left.
  - apply in_map, sort_In. rewrite E. apply last_In. discriminate.
  - intros o Ho. apply sort_In in Ho. rewrite E in Ho. split.
    + exact (sorted_head_least r0 t Hs o Ho).
    + exact (sorted_last_greatest (r0 :: t) r0 Hs o Ho).
  - rewrite analyze_data_dates, resample_dates, E. reflexivity.
Qed.

End SortedFrame.

(** X3: for a non-empty set of valid observations the daily series
    starts on the earliest observed date, ends on the latest, holds one
    point for each of the [(last - first).days + 1] days between them,
    each point one calendar day after the one before, no date twice, and
    every observed date has its point. *)
Theorem daily_index_spans_history (df : list Obs) :
  (forall o, In o df -> valid_date (Date o) = true) ->
  df <> [] ->
  let dates := map dDate (analyze_data df) in
  exists first last,
    In first (map Date df) /\ In last (map Date df) /\
    (forall o, In o df ->
       date_leb first (Date o) = true /\ date_leb (Date o) last = true) /\
    hd_error dates = Some first /\
    List.last dates first = last /\
    length dates = Z.to_nat (toordinal last - toordinal first + 1) /\
    (forall i d d',
       nth_error dates i = Some d -> nth_error dates (S i) = Some d' ->
       d' = next_day d) /\
    NoDup dates /\
    (forall o, In o df -> In (Date o) dates).
Proof.
  intros Hv Hne dates.
  destruct (series_index df Hne) as (first & last & Hf & Hl & Hb & Hd).
  assert (Hwf : forall d, In d (map Date df) -> wf_date d).
  { intros d Hin. apply in_map_iff in Hin. destruct Hin as (o & <- & Ho).
    apply valid_date_wf, Hv, Ho. }
  assert (Hfl : date_ltb last first = false).
  { apply in_map_iff in Hf. destruct Hf as (o & <- & Ho). apply Hb, Ho. }
  exists first, last. subst dates. rewrite Hd.
  split; [exact Hf|]. split; [exact Hl|]. split; [|split; [|split; [|split; [|split; [|split]]]]].
  - intros o Ho. unfold date_leb. destruct (Hb o Ho) as [-> ->]. now split.
  - pose proof (toordinal_le first last (Hwf _ Hf) (Hwf _ Hl) Hfl).
    unfold periods_between.
    destruct (Z.to_nat (toordinal last - toordinal first + 1)) eqn:E; [lia|].
    reflexivity.
  - apply date_range_last; auto.
  - apply date_range_length.
  - apply date_range_succ.
  - apply sorted_lt_NoDup, date_range_sorted.
  - intros o Ho. destruct (Hb o Ho) as [H1 H2].
    apply date_range_covers; auto. apply Hwf. now apply in_map.
Qed.

Lemma daily_index_example :
  (forall o, In o obs_scenario -> valid_date (Date o) = true) /\
  obs_scenario <> [] /\
  exists first last,
    hd_error (map dDate (analyze_data obs_scenario)) = Some first /\
    List.last (map dDate (analyze_data obs_scenario)) first = last.
Proof.
  assert (Hv : forall o, In o obs_scenario -> valid_date (Date o) = true).
  { intros o [<-|[<-|[<-|[]]]]; reflexivity. }
  assert (Hne : obs_scenario <> []) by discriminate.
  split; [exact Hv|]. split; [exact Hne|].
  destruct (daily_index_spans_history obs_scenario Hv Hne)
    as (first & last & _ & _ & _ & Hh & Hl & _).
  exists first, last. split; [exact Hh | exact Hl].
Defined.

(** ** Minutes are kept by binning *)

Section Conservation.

Lemma Qsum_map_ext_eq {A} (f g : A -> Q) (l : list A) :
  (forall x, In x l -> f x == g x) ->
  Qsum (map f l) == Qsum (map g l).
Proof.
  induction l as [|a l IH]; intros H; simpl; [reflexivity|].
  rewrite !Qsum_cons, (H a) by now left.
  rewrite IH by (intros; apply H; now right). reflexivity.
Qed.

Lemma Qsum_map_plus {A} (f g : A -> Q) (l : list A) :
  Qsum (map (fun x => f x + g x) l) == Qsum (map f l) + Qsum (map g l).
Proof.
  induction l as [|a l IH]; simpl.
  - unfold Qsum. simpl. ring.
  - rewrite !Qsum_cons, IH. ring.
Qed.

Lemma Qsum_zeros {A} (l : list A) : Qsum (map (fun _ => 0) l) == 0.
Proof.
  induction l as [|a l IH]; simpl; [reflexivity|].
  rewrite Qsum_cons, IH. ring.
Qed.

Lemma Qsum_indicator_out (x : date) (v : Q) (ds : list date) :
  ~ In x ds ->
  Qsum (map (fun d => if date_eqb x d then v else 0) ds) == 0.
Proof.
  induction ds as [|d ds IH]; intros H; simpl.
  - reflexivity.
  - rewrite Qsum_cons, IH by (intros Hin; apply H; now right).
    destruct (date_eqb x d) eqn:E; [|ring].
    apply date_eqb_eq in E. exfalso. apply H. now left.
Qed.

Lemma Qsum_indicator_in (x : date) (v : Q) (ds : list date) :
  NoDup ds -> In x ds ->
  Qsum (map (fun d => if date_eqb x d then v else 0) ds) == v.
Proof.
  induction 1 as [|d ds Hnin Hnd IH]; intros Hin; [contradiction|].
  simpl. rewrite Qsum_cons. destruct Hin as [->|Hin].
  - replace (date_eqb x x) with true
      by (symmetry; now apply date_eqb_eq).
    rewrite Qsum_indicator_out by exact Hnin. ring.
  - rewrite IH by exact Hin.
    destruct (date_eqb x d) eqn:E; [|ring].
    apply date_eqb_eq in E. subst d. contradiction.
Qed.

(** Bins over distinct days that include every date of the frame hold
    all its minutes. *)
Lemma bins_total (ds : list date) (df : list Obs) :
  NoDup ds -> (forall o, In o df -> In (Date o) ds) ->
  Qsum (map (bin_sum df) ds) == Qsum (map LearningTime df).
Proof.
  intros Hnd. induction df as [|o df IH]; intros Hcov.
  - rewrite (Qsum_map_ext_eq _ (fun _ => 0)) by (intros; reflexivity).
    rewrite Qsum_zeros. reflexivity.
  - rewrite (Qsum_map_ext_eq _
               (fun d => (if date_eqb (Date o) d then LearningTime o else 0)
                         + bin_sum df d))
      by (intros; apply bin_sum_cons).
    rewrite Qsum_map_plus, Qsum_indicator_in, IH;
      [simpl; rewrite Qsum_cons; reflexivity| | |].
    + intros x Hx. apply Hcov. now right.
    + exact Hnd.
    + apply Hcov. now left.
Qed.

Lemma bin_sum_filter (W : date -> bool) (df : list Obs) (d : date) :
  W d = true ->
  bin_sum (filter (fun o => W (Date o)) df) d = bin_sum df d.
Proof.
  intros Hd. unfold bin_sum. f_equal. f_equal.
  induction df as [|o df IH]; simpl; [reflexivity|].
  destruct (date_eqb (Date o) d) eqn:E.
  - assert (HW : W (Date o) = true).
    { pose proof E as E'. apply date_eqb_eq in E'. now rewrite E'. }
    rewrite HW. simpl. rewrite E. now rewrite IH.
  - destruct (W (Date o)); simpl; rewrite ?E; exact IH.
Qed.

Lemma series_dates_NoDup (df : list Obs) :
  NoDup (map dDate (analyze_data df)).
Proof.
  apply sorted_lt_NoDup, series_dates_sorted.
Qed.

Lemma series_dates_cover (df : list Obs) :
  (forall o, In o df -> valid_date (Date o) = true) ->
  forall o, In o df -> In (Date o) (map dDate (analyze_data df)).
Proof.
  intros Hv o Ho.
  assert (Hne : df <> []) by (intros ->; contradiction).
  destruct (series_index df Hne) as (first & last & Hf & Hl & Hb & Hd).
  rewrite Hd. destruct (Hb o Ho) as [H1 H2].
  assert (Hwf : forall d, In d (map Date df) -> wf_date d).
  { intros d Hin. apply in_map_iff in Hin. destruct Hin as (x & <- & Hx).
    apply valid_date_wf, Hv, Hx. }
  apply date_range_covers; auto. apply Hwf. now apply in_map.
Qed.

Lemma daily_minutes_bin (df : list Obs) (r : DailyRow) :
  In r (analyze_data df) -> dLearningTime r == bin_sum df (dDate r).
Proof.
  intros Hr. apply In_nth_error in Hr. destruct Hr as (i & Hi).
  apply analyze_data_nth in Hi. destruct Hi as (Hd & _).
  apply nth_error_In, resample_row in Hd. rewrite Hd.
  apply bin_sum_sort.
Qed.

Lemma Qsum_rows_bins (df : list Obs) (rows : list DailyRow) :
  (forall r, In r rows -> In r (analyze_data df)) ->
  Qsum (map dLearningTime rows) == Qsum (map (bin_sum df) (map dDate rows)).
Proof.
  intros H. rewrite map_map. apply Qsum_map_ext_eq.
  intros r Hr. now apply daily_minutes_bin, H.
Qed.

End Conservation.

(** X4: gap filling and same-day summing lose nothing: for valid
    observations the minutes of the daily series add up to the minutes
    of all observations, and that total is the [Cumulative_Time] of the
    last point. *)
Theorem minutes_are_conserved (df : list Obs) :
  (forall o, In o df -> valid_date (Date o) = true) ->
  let series := analyze_data df in
  Qsum (map dLearningTime series) == Qsum (map LearningTime df) /\
  (forall r, nth_error series (length series - 1) = Some r ->
             Cumulative_Time r == Qsum (map LearningTime df)).
Proof.
  intros Hv series.
  assert (Htot : Qsum (map dLearningTime series)
                 == Qsum (map LearningTime df)).
  { subst series. rewrite (Qsum_rows_bins df (analyze_data df)) by auto.
    apply bins_total; [apply series_dates_NoDup|now apply series_dates_cover]. }
  split; [exact Htot|].
  intros r Hr. rewrite (cumulative_time_nth df _ _ Hr). fold series.
  assert (Hlen : (length series - 1 < length series)%nat)
    by (apply nth_error_Some; congruence).
  replace (S (length series - 1)) with (length (map dLearningTime series))
    by (rewrite length_map; lia).
  rewrite firstn_all. exact Htot.
Qed.

Lemma minutes_are_conserved_example :
  (forall o, In o obs_scenario -> valid_date (Date o) = true) /\
  Qsum (map dLearningTime (analyze_data obs_scenario)) == 30 + 20 + 10.
Proof.
  assert (Hv : forall o, In o obs_scenario -> valid_date (Date o) = true).
  { intros o [<-|[<-|[<-|[]]]]; reflexivity. }
  split; [exact Hv|].
  exact (proj1 (minutes_are_conserved obs_scenario Hv)).
Defined.

(** X5: the month view loses nothing either: the minutes of its rows,
    and so the [Monthly_Cumulative] of its last row, add up to the
    minutes of the observations dated in
    [month_start, next_month_start). *)
Theorem month_total_is_sum_of_month_observations
    (df : list Obs) (current_month_start : date) :
  (forall o, In o df -> valid_date (Date o) = true) ->
  let rows := df_month (analyze_data df) current_month_start in
  let in_month := fun d =>
    date_leb current_month_start d
    && date_ltb d (next_month_start current_month_start) in
  let month_minutes :=
    Qsum (map LearningTime (filter (fun o => in_month (Date o)) df)) in
  Qsum (map (fun r => dLearningTime (mDaily r)) rows) == month_minutes /\
  (forall r, nth_error rows (length rows - 1) = Some r ->
             Monthly_Cumulative r == month_minutes).
Proof.
  intros Hv rows in_month month_minutes.
  set (sel := filter_month (analyze_data df) current_month_start).
  assert (Hsel : map (fun r => dLearningTime (mDaily r)) rows
                 = map dLearningTime sel).
  { subst rows sel. rewrite <- df_month_rows, map_map. reflexivity. }
  assert (Htot : Qsum (map dLearningTime sel) == month_minutes).
  { rewrite (Qsum_rows_bins df sel)
      by (intros r Hr; unfold sel, filter_month in Hr;
          apply filter_In in Hr; tauto).
    assert (Ed : map dDate sel
                 = filter in_month (map dDate (analyze_data df))).
    { unfold sel, filter_month. rewrite filter_map_swap. reflexivity. }
    rewrite Ed.
    rewrite (Qsum_map_ext_eq _
               (bin_sum (filter (fun o => in_month (Date o)) df))).
    - apply bins_total.
      + apply NoDup_filter, series_dates_NoDup.
      + intros o Ho. apply filter_In in Ho. destruct Ho as [Ho Hin].
        apply filter_In. split; [now apply series_dates_cover|exact Hin].
    - intros d Hd. apply filter_In in Hd. destruct Hd as [_ Hd].
      now rewrite bin_sum_filter. }
  split; [now rewrite Hsel|].
  intros r Hr. apply df_month_nth in Hr. destruct Hr as [Hn Hm].
  rewrite Hm. fold sel. fold sel in Hn.
  assert (Hlen : length rows = length sel).
  { subst rows sel. rewrite <- df_month_rows, length_map. reflexivity. }
  rewrite Hlen in *.
  assert (Hlt : (length sel - 1 < length sel)%nat)
    by (apply nth_error_Some; congruence).
  replace (S (length sel - 1)) with (length (map dLearningTime sel))
    by (rewrite length_map; lia).
  rewrite firstn_all. exact Htot.
Qed.

Lemma month_total_example :
  (forall o, In o obs_after_idle_day -> valid_date (Date o) = true) /\
  Qsum (map (fun r => dLearningTime (mDaily r))
            (df_month (analyze_data obs_after_idle_day) (mkdate 2026 1 1)))
  == 30.
Proof.
  assert (Hv : forall o, In o obs_after_idle_day ->
                         valid_date (Date o) = true).
  { intros o [<-|[<-|[]]]; reflexivity. }
  split; [exact Hv|].
  exact (proj1 (month_total_is_sum_of_month_observations
                  obs_after_idle_day (mkdate 2026 1 1) Hv)).
Defined.

(** ** The order of the observations does not matter *)

Section OrderIndependence.

Lemma bin_sum_perm (df df' : list Obs) (d : date) :
  Permutation df df' -> bin_sum df d == bin_sum df' d.
Proof.
  induction 1 as [|x l l' _ IH|x y l|l l' l'' _ IH1 _ IH2].
  - reflexivity.
  - now rewrite !bin_sum_cons, IH.
  - rewrite !bin_sum_cons. ring.
  - now rewrite IH1.
Qed.

Lemma series_dates_perm (df df' : list Obs) :
  Permutation df df' ->
  map dDate (analyze_data df) = map dDate (analyze_data df').
Proof.
  intros Hp. destruct df as [|o df].
  - apply Permutation_nil in Hp. now subst.
  - assert (Hne : o :: df <> []) by discriminate.
    assert (Hne' : df' <> []).
    { intros ->. apply Permutation_sym, Permutation_nil in Hp. discriminate. }
    destruct (series_index _ Hne) as (f & l & Hf & Hl & Hb & ->).
    destruct (series_index _ Hne') as (f' & l' & Hf' & Hl' & Hb' & ->).
    assert (Hin : forall d, In d (map Date (o :: df)) ->
                            exists x, In x df' /\ Date x = d).
    { intros d Hd. apply in_map_iff in Hd. destruct Hd as (x & <- & Hx).
      exists x. split; [|reflexivity]. now apply (Permutation_in _ Hp). }
    assert (Hin' : forall d, In d (map Date df') ->
                             exists x, In x (o :: df) /\ Date x = d).
    { intros d Hd. apply in_map_iff in Hd. destruct Hd as (x & <- & Hx).
      exists x. split; [|reflexivity].
      now apply (Permutation_in _ (Permutation_sym Hp)). }
    assert (Ef : f = f').
    { destruct (Hin _ Hf) as (x & Hx & <-).
      destruct (Hin' _ Hf') as (x' & Hx' & <-).
      apply date_trichotomy;
        [apply (proj1 (Hb' x Hx)) | apply (proj1 (Hb x' Hx'))]. }
    assert (El : l = l').
    { destruct (Hin _ Hl) as (x & Hx & <-).
      destruct (Hin' _ Hl') as (x' & Hx' & <-).
      apply date_trichotomy;
        [apply (proj2 (Hb x' Hx')) | apply (proj2 (Hb' x Hx))]. }
    now subst.
Qed.

Lemma Forall2_of_nth {A B} (R : A -> B -> Prop) (l : list A) :
  forall l',
    length l = length l' ->
    (forall i a b, nth_error l i = Some a -> nth_error l' i = Some b -> R a b) ->
    Forall2 R l l'.
Proof.
  induction l as [|a l IH]; intros [|b l'] Hlen H; simpl in Hlen;
    try discriminate; constructor.
  - exact (H 0%nat a b eq_refl eq_refl).
  - apply IH; [lia|]. intros i x y Hx Hy. exact (H (S i) x y Hx Hy).
Qed.

Lemma Forall2_nth {A B} (R : A -> B -> Prop) (l : list A) (l' : list B) :
  Forall2 R l l' ->
  forall i a b, nth_error l i = Some a -> nth_error l' i = Some b -> R a b.
Proof.
  induction 1 as [|x y l l' Hxy _ IH]; intros i a b Ha Hb.
  - destruct i; discriminate.
  - destruct i as [|i]; simpl in Ha, Hb.
    + injection Ha as <-. injection Hb as <-. exact Hxy.
    + eapply IH; eassumption.
Qed.

Lemma Qsum_Forall2 (xs ys : list Q) :
  Forall2 Qeq xs ys -> Qsum xs == Qsum ys.
Proof.
  induction 1 as [|x y xs ys Hxy _ IH]; [reflexivity|].
  now rewrite !Qsum_cons, Hxy, IH.
Qed.

Lemma Forall2_firstn {A B} (R : A -> B -> Prop) (n : nat) :
  forall l l', Forall2 R l l' -> Forall2 R (firstn n l) (firstn n l').
Proof.
  induction n as [|n IH]; intros l l' H; simpl; [constructor|].
  destruct H; constructor; auto.
Qed.

Lemma Forall2_skipn {A B} (R : A -> B -> Prop) (n : nat) :
  forall l l', Forall2 R l l' -> Forall2 R (skipn n l) (skipn n l').
Proof.
  induction n as [|n IH]; intros l l' H; simpl; [exact H|].
  destruct H; [constructor|auto].
Qed.

Lemma Forall2_length_eq {A B} (R : A -> B -> Prop) (l : list A) (l' : list B) :
  Forall2 R l l' -> length l = length l'.
Proof.
  induction 1; simpl; congruence.
Qed.

Lemma daily_minutes_columns (df : list Obs) :
  map dLearningTime (analyze_data df) =
  map (bin_sum (sort_values df)) (map dDate (analyze_data df)).
Proof.
  rewrite analyze_data_minutes, analyze_data_dates.
  unfold resample_D_sum. destruct (sort_values df) as [|r0 t];
    [reflexivity|].
  rewrite !map_map. reflexivity.
Qed.

Lemma daily_minutes_perm (df df' : list Obs) :
  Permutation df df' ->
  Forall2 Qeq (map dLearningTime (analyze_data df))
              (map dLearningTime (analyze_data df')).
Proof.
  intros Hp. rewrite !daily_minutes_columns, (series_dates_perm df df' Hp).
  induction (map dDate (analyze_data df')) as [|d ds IH]; simpl;
    constructor; [|exact IH].
  now rewrite !bin_sum_sort, (bin_sum_perm df df' d Hp).
Qed.

Lemma moving_avg_nth (df : list Obs) (i : nat) (r : DailyRow) :
  nth_error (analyze_data df) i = Some r ->
  let win := trim 60 (firstn (S i) (map dLearningTime (analyze_data df))) in
  Moving_Avg_60d r =
  if (1 <=? length win)%nat then Some (mean win) else None.
Proof.
  intros H win. pose proof H as Hi.
  apply analyze_data_nth in H. destruct H as (_ & _ & Hma).
  unfold rolling_mean in Hma.
  change (@nil Q) with (trim 60 (@nil Q)) in Hma.
  rewrite rolling_mean_from_nth in Hma by lia.
  rewrite <- analyze_data_minutes in Hma.
  destruct (nth_error (map dLearningTime (analyze_data df)) i) eqn:E.
  - cbv zeta in Hma. rewrite app_nil_l in Hma. now injection Hma as <-.
  - apply nth_error_None in E. rewrite length_map in E.
    assert (i < length (analyze_data df))%nat
      by (apply nth_error_Some; congruence). lia.
Qed.

End OrderIndependence.

(** X6: the daily series does not depend on the order in which the
    observations arrive: two orderings of the same observations give
    the same dates and, point by point, equal minutes, cumulative totals
    and moving averages. *)
Theorem series_is_order_independent (df df' : list Obs) :
  Permutation df df' ->
  Forall2 row_equiv (analyze_data df) (analyze_data df').
Proof.
  intros Hp.
  pose proof (series_dates_perm df df' Hp) as Hd.
  pose proof (daily_minutes_perm df df' Hp) as Hm.
  apply Forall2_of_nth.
  - rewrite <- (length_map dDate (analyze_data df)), Hd. apply length_map.
  - intros i r r' Hr Hr'. unfold row_equiv.
    assert (Hpre : Forall2 Qeq
              (firstn (S i) (map dLearningTime (analyze_data df)))
              (firstn (S i) (map dLearningTime (analyze_data df'))))
      by now apply Forall2_firstn.
    split; [|split; [|split]].
    + pose proof (f_equal (fun l => nth_error l i) Hd) as E. cbv beta in E.
      rewrite !nth_error_map, Hr, Hr' in E. simpl in E. congruence.
    + eapply (Forall2_nth _ _ _ Hm i); rewrite nth_error_map;
        [rewrite Hr|rewrite Hr']; reflexivity.
    + rewrite (cumulative_time_nth df i r Hr),
              (cumulative_time_nth df' i r' Hr').
      now apply Qsum_Forall2.
    + rewrite (moving_avg_nth df i r Hr), (moving_avg_nth df' i r' Hr').
      cbv zeta.
      assert (Hwin : Forall2 Qeq
                (trim 60 (firstn (S i) (map dLearningTime (analyze_data df))))
                (trim 60 (firstn (S i) (map dLearningTime (analyze_data df'))))).
      { unfold trim. rewrite (Forall2_length_eq _ _ _ Hpre).
        now apply Forall2_skipn. }
      rewrite (Forall2_length_eq _ _ _ Hwin).
      destruct (1 <=? _)%nat; [|exact I].
      unfold option_Qeq, mean.
      rewrite (Forall2_length_eq _ _ _ Hwin), (Qsum_Forall2 _ _ Hwin).
      reflexivity.
Qed.

Lemma series_is_order_independent_example :
  Forall2 row_equiv
    (analyze_data obs_scenario)
    (analyze_data [ mkObs (mkdate 2026 1 1) 20; mkObs (mkdate 2026 1 1) 30;
                    mkObs (mkdate 2026 1 3) 10 ]).
Proof.
  apply series_is_order_independent. apply perm_swap.
Defined.

(** ** The display domain as an interval *)

Section DomainInterval.

Lemma max0_nonneg (x : Q) : 0 <= max0 x.
Proof.
  unfold max0. destruct (Qgtb x 0) eqn:E; [|apply Qle_refl].
  apply Qgtb_lt in E. lra.
Qed.

Lemma max0_le (x v : Q) : 0 <= v -> x <= v -> max0 x <= v.
Proof.
  intros Hv Hx. unfold max0. now destruct (Qgtb x 0).
Qed.

Lemma padding_positive (lo hi : Q) :
  lo <= hi ->
  0 < (if Qeq_bool ((hi - lo) * (2 # 10)) 0 then 20
       else (hi - lo) * (2 # 10)).
Proof.
  intros H. destruct (Qeq_bool ((hi - lo) * (2 # 10)) 0) eqn:E.
  - reflexivity.
  - assert (~ (hi - lo) * (2 # 10) == 0)
      by (rewrite <- Qeq_bool_iff; congruence).
    lra.
Qed.

Lemma ma_domain_bounds (col : list (option Q)) :
  0 <= fst (ma_domain col) /\
  (forall v, In v (dropna col) -> v < snd (ma_domain col)) /\
  ((forall v, In v (dropna col) -> 0 <= v) ->
   fst (ma_domain col) < snd (ma_domain col) /\
   forall v, In v (dropna col) -> fst (ma_domain col) <= v).
Proof.
  unfold ma_domain. destruct (dropna col) as [|x xs] eqn:E.
  - simpl. split; [lra|]. split; [contradiction|].
    intros _. split; [reflexivity|contradiction].
  - destruct (series_min_spec xs x) as [Hmin_in Hmin].
    destruct (series_max_spec xs x) as [Hmax_in Hmax].
    set (lo := series_min x xs) in *. set (hi := series_max x xs) in *.
    assert (Hlh : lo <= hi) by (apply Hmax; exact Hmin_in).
    pose proof (padding_positive lo hi Hlh) as Hp.
    set (pad := if Qeq_bool ((hi - lo) * (2 # 10)) 0 then 20
                else (hi - lo) * (2 # 10)) in *.
    cbv zeta. fold pad. cbn [fst snd].
    split; [apply max0_nonneg|]. split.
    + intros v Hv. specialize (Hmax v Hv). lra.
    + intros Hpos.
      assert (H0 : 0 <= lo) by (apply Hpos; exact Hmin_in).
      split.
      * apply Qle_lt_trans with lo; [apply max0_le; lra|lra].
      * intros v Hv. specialize (Hmin v Hv). apply max0_le; [|lra].
        now apply Hpos.
Qed.

Lemma trim_In (w : nat) (l : list Q) (x : Q) : In x (trim w l) -> In x l.
Proof.
  unfold trim. intros H.
  rewrite <- (firstn_skipn (length l - w) l). apply in_or_app. now right.
Qed.

Lemma firstn_In {A} (n : nat) (l : list A) (x : A) :
  In x (firstn n l) -> In x l.
Proof.
  intros H. rewrite <- (firstn_skipn n l). apply in_or_app. now left.
Qed.

Lemma moving_avg_nonneg (df : list Obs) (r : DailyRow) :
  (forall o, In o df -> 0 <= LearningTime o) ->
  In r (analyze_data df) ->
  exists v, Moving_Avg_60d r = Some v /\ 0 <= v.
Proof.
  intros Hpos Hr. apply In_nth_error in Hr. destruct Hr as (i & Hi).
  rewrite (moving_avg_nth df i r Hi). cbv zeta.
  set (win := trim 60 (firstn (S i) (map dLearningTime (analyze_data df)))).
  assert (Hlen : (1 <= length win)%nat).
  { unfold win. rewrite trim_length, length_firstn, length_map.
    assert (i < length (analyze_data df))%nat
      by (apply nth_error_Some; congruence). lia. }
  replace (1 <=? length win)%nat with true
    by (symmetry; now apply Nat.leb_le).
  eexists. split; [reflexivity|]. unfold mean.
  apply Qle_shift_div_l; [apply inject_Z_pos; lia|].
  rewrite Qmult_0_l. apply Qsum_nonneg.
  intros x Hx. apply trim_In, firstn_In, in_map_iff in Hx.
  destruct Hx as (p & <- & Hp). rewrite (daily_minutes_bin df p Hp).
  now apply bin_sum_nonneg.
Qed.

Lemma dropna_In (col : list (option Q)) (v : Q) :
  In v (dropna col) <-> In (Some v) col.
Proof.
  unfold dropna. rewrite in_flat_map. split.
  - intros ([x|] & Hin & Hv); [|contradiction].
    destruct Hv as [->|[]]. exact Hin.
  - intros H. exists (Some v). split; [exact H|now left].
Qed.

End DomainInterval.

(** X7: with observations of non-negative minutes every point of a month
    view has a moving average, it is not negative, and it lies inside
    the display domain computed for that view. *)
Theorem month_view_averages_fit_domain
    (df : list Obs) (goal_df : list Goal) (current_month_start : date) :
  (forall o, In o df -> 0 <= LearningTime o) ->
  let view := month_view (analyze_data df) goal_df current_month_start in
  let low := fst (moving_avg_display_domain view) in
  let high := snd (moving_avg_display_domain view) in
  low < high /\
  forall r, In r (points view) ->
    exists v, Moving_Avg_60d (mDaily r) = Some v /\
              0 <= v /\ low <= v /\ v < high.
Proof.
  intros Hpos view low high.
  set (col := map (fun r => Moving_Avg_60d (mDaily r)) (points view)).
  assert (Hcol : forall v, In v (dropna col) -> 0 <= v).
  { intros v Hv. apply dropna_In in Hv. unfold col in Hv.
    apply in_map_iff in Hv. destruct Hv as (r & Hr & Hin).
    assert (Hs : In (mDaily r) (analyze_data df)).
    { apply (in_map mDaily) in Hin. unfold view, month_view in Hin.
      cbn [points] in Hin.
      rewrite df_month_rows in Hin. unfold filter_month in Hin.
      apply filter_In in Hin. tauto. }
    destruct (moving_avg_nonneg df _ Hpos Hs) as (v' & E & Hv').
    rewrite E in Hr. now injection Hr as <-. }
  destruct (ma_domain_bounds col) as (_ & Hhigh & Hnn).
  destruct (Hnn Hcol) as [Hlt Hlow].
  split; [exact Hlt|].
  intros r Hr.
  assert (Hs : In (mDaily r) (analyze_data df)).
  { apply (in_map mDaily) in Hr. unfold view, month_view in Hr.
    cbn [points] in Hr.
    rewrite df_month_rows in Hr. unfold filter_month in Hr.
    apply filter_In in Hr. tauto. }
  destruct (moving_avg_nonneg df _ Hpos Hs) as (v & E & Hv).
  exists v. split; [exact E|]. split; [exact Hv|].
  assert (Hin : In v (dropna col)).
  { apply dropna_In. unfold col. apply in_map_iff. now exists r. }
  split; [now apply Hlow | now apply Hhigh].
Qed.

Lemma month_view_averages_fit_domain_example :
  (forall o, In o obs_scenario -> 0 <= LearningTime o) /\
  let view := month_view (analyze_data obs_scenario) [] (mkdate 2026 1 1) in
  fst (moving_avg_display_domain view) < snd (moving_avg_display_domain view).
Proof.
  assert (Hpos : forall o, In o obs_scenario -> 0 <= LearningTime o).
  { intros o [<-|[<-|[<-|[]]]]; discriminate. }
  split; [exact Hpos|].
  exact (proj1 (month_view_averages_fit_domain obs_scenario []
                  (mkdate 2026 1 1) Hpos)).
Defined.

(** ** What the normalizer hands on *)

Section NormalizerOutput.

Lemma is_digit_val (c : ascii) :
  is_digit c = true -> (0 <= digit_val c <= 9)%Z.
Proof.
  unfold is_digit, digit_val. rewrite andb_true_iff, !Nat.leb_le. lia.
Qed.

Lemma month_of_abbr_range (a b c : ascii) (m : Z) :
  month_of_abbr a b c = Some m -> (1 <= m <= 12)%Z.
Proof.
  unfold month_of_abbr.
  repeat match goal with
         | |- (if ?t then _ else _) = _ -> _ => destruct t
         end;
    intros H; try discriminate; injection H as <-; lia.
Qed.

Lemma strptime_Yb_first_of_month (s : string) (d : date) :
  strptime_Yb s = Some d -> valid_date d = true /\ day d = 1%Z.
Proof.
  intros H. apply strptime_Yb_pattern in H.
  destruct H as (y3 & y2 & y1 & y0 & a & b & c & _ & D3 & D2 & D1 & D0
                 & Hm & Hy & Hy1 & Hd).
  apply is_digit_val in D3, D2, D1, D0.
  apply month_of_abbr_range in Hm.
  split; [|exact Hd].
  pose proof (days_in_month_bounds (year d) (month d) Hm).
  unfold valid_date. rewrite !andb_true_iff, !Z.leb_le. lia.
Qed.

Lemma goal_of_page_month (page : json) (g : Goal) :
  goal_of_page page = Ok (Some g) ->
  exists s, strptime_Yb s = Some (Month g).
Proof.
  unfold goal_of_page. intros H.
  repeat match type of H with
         | bind ?e _ = _ =>
             destruct e; cbn [bind] in H; [|discriminate]
         | (if ?t then _ else _) = _ => destruct t
         | match ?x with _ => _ end = _ => destruct x eqn:?
         end; try discriminate.
  injection H as <-. eexists. eassumption.
Qed.

Lemma process_goal_data_months (results : list json) :
  forall goals,
    process_goal_data results = Ok goals ->
    forall g, In g goals -> exists s, strptime_Yb s = Some (Month g).
Proof.
  induction results as [|page rest IH]; intros goals H g Hg; simpl in H.
  - injection H as <-. contradiction.
  - destruct (goal_of_page page) as [r|] eqn:E; [|discriminate].
    cbn [bind] in H.
    destruct (process_goal_data rest) as [gs|]; [|discriminate].
    cbn [bind] in H. injection H as <-.
    destruct r as [x|]; [destruct Hg as [<-|Hg]|].
    + now apply (goal_of_page_month page).
    + now apply (IH gs).
    + now apply (IH gs).
Qed.

Lemma goal_lookup_by_month (goals : list Goal) (cms : date) :
  (forall g, In g goals -> day (Month g) = 1%Z) ->
  day cms = 1%Z ->
  current_goal_minutes goals cms =
  match find (fun g => (year (Month g) =? year cms)%Z
                       && (month (Month g) =? month cms)%Z) goals with
  | Some g => GoalTime g
  | None => 0
  end.
Proof.
  intros Hd Hc. unfold current_goal_minutes.
  induction goals as [|g goals IH]; simpl; [reflexivity|].
  assert (E : date_eqb (Month g) cms =
              (year (Month g) =? year cms)%Z
              && (month (Month g) =? month cms)%Z).
  { unfold date_eqb. rewrite (Hd g) by now left. rewrite Hc.
    change (1 =? 1)%Z with true. apply andb_true_r. }
  rewrite E.
  destruct ((year (Month g) =? year cms)%Z && (month (Month g) =? month cms)%Z);
    [reflexivity|].
  apply IH. intros x Hx. apply Hd. now right.
Qed.

End NormalizerOutput.

(** X8: every goal row the normalizer produces is dated on the first
    day of a valid month, so for a month start the lookup by equality of
    dates is a match on year and month, and of several goals of one
    month the first in batch order counts. *)
Theorem goal_lookup_matches_year_and_month
    (results : list json) (goals : list Goal) (current_month_start : date) :
  process_goal_data results = Ok goals ->
  day current_month_start = 1%Z ->
  (forall g, In g goals ->
     valid_date (Month g) = true /\ day (Month g) = 1%Z) /\
  current_goal_minutes goals current_month_start =
  match find (fun g => (year (Month g) =? year current_month_start)%Z
                       && (month (Month g) =? month current_month_start)%Z)
             goals with
  | Some g => GoalTime g
  | None => 0
  end.
Proof.
  intros H Hday.
  assert (Hg : forall g, In g goals ->
                 valid_date (Month g) = true /\ day (Month g) = 1%Z).
  { intros g Hin.
    destruct (process_goal_data_months results goals H g Hin) as (s & Hs).
    now apply (strptime_Yb_first_of_month s). }
  split; [exact Hg|].
  apply goal_lookup_by_month; [|exact Hday].
  intros g Hin. now apply Hg.
Qed.

Lemma goal_lookup_example :
  process_goal_data [goal_page_example] = Ok goal_df_example /\
  current_goal_minutes goal_df_example (mkdate 2026 1 1) = 600.
Proof.
  split; [reflexivity|].
  exact (proj2 (goal_lookup_matches_year_and_month
                  [goal_page_example] goal_df_example (mkdate 2026 1 1)
                  eq_refl eq_refl)).
Defined.

(** ** The two extraction loops *)

Section ChartExtraction.

Lemma dict_get_encoded_none (k : string) (props : list (string * notion_prop)) :
  dict_get (JObj (map (fun kp => (fst kp, encode_prop (snd kp))) props))
           k JNull =
  Ok (match lookup k props with
      | Some p => encode_prop p
      | None => JNull
      end).
Proof.
  unfold dict_get. rewrite lookup_encoded.
  now destruct (lookup k props).
Qed.

Variable props : list (string * notion_prop).
Hypothesis props_kinds : forall k p, In (k, p) props -> other_kind p = true.

Lemma chart_row_of_encoded :
  chart_row_of_page (encode_page props) =
  match lookup PROPERTY_DATE props with
  | None | Some (NDate None) => Ok None
  | Some (NDate (Some s)) =>
      Ok (Some (mkRaw (JStr s)
                  (JNum match lookup PROPERTY_TIME props with
                        | Some (NNumber (Some n)) =>
                            if Qeq_bool n 0 then 0 else n
                        | _ => 0
                        end)))
  | Some _ => Raise (KeyError "date")
  end.
Proof.
  unfold chart_row_of_page. rewrite subscript_properties. cbn [bind].
  rewrite dict_get_encoded_none. cbn [bind].
  destruct (lookup PROPERTY_DATE props)
    as [[[s|]|[n|]|texts|ty payload]|] eqn:Ed; try reflexivity.
  - cbn -[dict_get PROPERTY_TIME]. rewrite dict_get_encoded_none. cbn [bind].
    destruct (lookup PROPERTY_TIME props)
      as [[[s'|]|[n|]|texts|ty payload]|] eqn:Et; try reflexivity.
    + cbn. unfold py_or. cbn. now destruct (Qeq_bool n 0).
    + destruct (other_kind_tags ty payload
                  (props_kinds _ _ (lookup_In _ _ _ Et)))
        as (_ & En & _).
      cbn. unfold eq_str. cbn. rewrite En. reflexivity.
  - destruct (other_kind_tags ty payload
                (props_kinds _ _ (lookup_In _ _ _ Ed)))
      as (Edate & _).
    cbn. rewrite Edate. reflexivity.
Qed.

End ChartExtraction.

(** X9: on records whose date property is absent or of the date kind,
    the extraction loop of [generate_chart.py] builds the same rows, in
    the same order, as the loop of [process_raw_data] in [app.py]. *)
Theorem chart_rows_agree_with_app_rows
    (pages : list (list (string * notion_prop))) :
  (forall props, In props pages ->
     (forall k p, In (k, p) props -> other_kind p = true) /\
     (lookup PROPERTY_DATE props = None \/
      exists start, lookup PROPERTY_DATE props = Some (NDate start))) ->
  chart_collect_rows (map encode_page pages) =
  collect_rows (map encode_page pages).
Proof.
  induction pages as [|props pages IH]; intros H; [reflexivity|].
  simpl. rewrite IH by (intros q Hq; apply H; now right).
  destruct (H props (or_introl eq_refl)) as [Hk Hd].
  rewrite (chart_row_of_encoded props Hk), (raw_row_of_encoded props Hk).
  destruct Hd as [->|([s|] & ->)]; reflexivity.
Qed.

Lemma chart_rows_agree_example :
  chart_collect_rows [encode_page activity_props_example] =
  collect_rows [encode_page activity_props_example].
Proof.
  apply (chart_rows_agree_with_app_rows [activity_props_example]).
  intros props [<-|[]]. split.
  - intros k p [E|[E|[]]]; injection E as _ <-; reflexivity.
  - right. eexists. reflexivity.
Defined.

(** X10: on a record whose date property is of another kind the two
    loops part: [app.py] drops the record, [generate_chart.py] reads
    [date_prop["date"]] unchecked, raises [KeyError] and loses the whole
    batch. *)
Theorem chart_rows_raise_on_other_kind
    (props : list (string * notion_prop)) (p : notion_prop)
    (before after : list json) (rows_before : list RawRow) :
  (forall k q, In (k, q) props -> other_kind q = true) ->
  lookup PROPERTY_DATE props = Some p ->
  (forall start, p <> NDate start) ->
  chart_collect_rows before = Ok rows_before ->
  raw_row_of_page (encode_page props) = Ok None /\
  chart_row_of_page (encode_page props) = Raise (KeyError "date") /\
  chart_collect_rows (before ++ encode_page props :: after)
    = Raise (KeyError "date").
Proof.
  intros Hk Hd Hp Hb.
  assert (Hc : chart_row_of_page (encode_page props) = Raise (KeyError "date")).
  { rewrite (chart_row_of_encoded props Hk), Hd.
    destruct p as [s|?|?|? ?]; try reflexivity. now destruct (Hp s). }
  split; [|split; [exact Hc|]].
  - rewrite (raw_row_of_encoded props Hk), Hd.
    destruct p as [s|?|?|? ?]; try reflexivity. now destruct (Hp s).
  - revert rows_before Hb.
    induction before as [|page before IH]; intros rows_before Hb; simpl.
    + now rewrite Hc.
    + simpl in Hb.
      destruct (chart_row_of_page page) as [r|]; [|discriminate].
      cbn [bind] in *.
      destruct (chart_collect_rows before) as [rs|]; [|discriminate].
      now rewrite (IH rs eq_refl).
Qed.

Lemma chart_rows_raise_example :
  chart_collect_rows [encode_page activity_props_example;
                      encode_page mistyped_date_props]
    = Raise (KeyError "date").
Proof.
  refine (proj2 (proj2 (chart_rows_raise_on_other_kind mistyped_date_props
            (NOther "rich_text" (JArr []))
            [encode_page activity_props_example] [] _ _ eq_refl _ eq_refl))).
  - intros k q [E|[E|[]]]; injection E as _ <-; reflexivity.
  - discriminate.
Defined.
